(** * ATS_CHECKER: the /analyze request pipeline of [app.py]

    A shallow embedding of the Flask service in [src/app.py]: PDF text
    extraction ([extract_text_from_pdf]), the retrying call of the remote
    generation service ([run_ats_engine]) and the request handler
    ([analyze]), followed by the properties of the specification that
    concern them.

    Python [str] values are sequences of Unicode code points and are
    modelled as [list N].  The collaborators the program consumes (the
    disk, the PDF library, the remote model, [uuid.uuid4], [time.sleep],
    [print]) are modelled by an explicit [world] that the program reads and
    updates, and by an [env] of oracles that fixes how the outside answers. *)

From Stdlib Require Import ZArith NArith String Ascii.
From Stdlib.Strings Require Import Byte.
From stdpp Require Import base option list gmap.

Open Scope list_scope.

(** ** Python strings *)

(** A source literal, character by character. *)
Fixpoint lit (s : string) : list N :=
  match s with
  | EmptyString => []
  | String a s' => N_of_ascii a :: lit s'
  end.

(** [str.isspace] on one code point: the characters that [str.strip()]
    removes (bidirectional class WS, B or S, or category Zs). *)
Definition isspace (c : N) : bool :=
  ((0x09 <=? c) && (c <=? 0x0D) || (0x1C <=? c) && (c <=? 0x20)
   || (c =? 0x85) || (c =? 0xA0) || (c =? 0x1680)
   || (0x2000 <=? c) && (c <=? 0x200A)
   || (c =? 0x2028) || (c =? 0x2029) || (c =? 0x202F)
   || (c =? 0x205F) || (c =? 0x3000))%N.

Fixpoint lstrip (s : list N) : list N :=
  match s with
  | [] => []
  | c :: s' => if isspace c then lstrip s' else s
  end.

Definition rstrip (s : list N) : list N := rev (lstrip (rev s)).

(** [s.strip()] *)
Definition strip (s : list N) : list N := rstrip (lstrip s).

(** [s[:n]] for a non-negative bound. *)
Definition slice_to (n : nat) (s : list N) : list N := take n s.

(** Truth value of a string, [if s:] *)
Definition truthy (s : list N) : bool :=
  match s with [] => false | _ :: _ => true end.

(** Truth value of a value that is a string or [None]. *)
Definition truthy_opt (v : option (list N)) : bool :=
  match v with None => false | Some s => truthy s end.

(** ** Exceptions, the world and the oracles *)

(** An instance of Python's [Exception] hierarchy, which is what the
    collaborators raise and what [except Exception] catches: its class
    name and its [str()]. *)
Record exn := Exc { exc_class : string; exc_str : list N }.

Inductive result (A : Type) : Type :=
| Ok (a : A)
| Raise (e : exn).
Arguments Ok {A} a.
Arguments Raise {A} e.

(** What the program can observe and change. *)
Record world := World {
  disk : gmap (list N) (list byte);    (* path -> file contents *)
  stdout : list (list N);              (* lines printed *)
  slept : list Z;                      (* arguments of time.sleep, in order *)
  sent : list (list N * list N);       (* (model, contents) submitted *)
}.

(** One iteration of [for page in reader.pages]: fetching the page and
    calling [page.extract_text()] either raises or gives a string or [None]. *)
Abbreviation page := (result (option (list N))).

(** How the outside answers. *)
Record env := Env {
  (* PyPDF2.PdfReader(file) on the bytes of the file, then its pages *)
  PdfReader : list byte → result (list page);
  (* client.models.generate_content: the reply to the k-th submission
     (counted from 0 over the life of the process), with its [text] *)
  generate_content : nat → list N → list N → result (option (list N));
  (* str(uuid.uuid4()) for the request at hand *)
  uuid4 : list N;
  (* resume_file.save(path): the fault of the save, if any, with what it
     left at the path: nothing when the destination could not be opened,
     the first n bytes when the copy failed after the destination had been
     opened for writing *)
  save_fault : list N → option (exn * option nat);
}.

(** Computations: the world persists when an exception is raised. *)
Definition M (A : Type) : Type := world → result A * world.

Definition ret {A} (a : A) : M A := λ w, (Ok a, w).
Definition raise {A} (e : exn) : M A := λ w, (Raise e, w).
Definition bind {A B} (m : M A) (k : A → M B) : M B :=
  λ w, match m w with
       | (Ok a, w') => k a w'
       | (Raise e, w') => (Raise e, w')
       end.

(** [try: m except Exception as e: h e] *)
Definition try_except {A} (m : M A) (h : exn → M A) : M A :=
  λ w, match m w with
       | (Ok a, w') => (Ok a, w')
       | (Raise e, w') => h e w'
       end.

Notation "'let!' x := c 'in' k" := (bind c (λ x, k))
  (at level 10, x name, c at level 100, k at level 200).
Notation "'do!' c 'in' k" := (bind c (λ _, k))
  (at level 10, c at level 100, k at level 200).

(** *** Primitive effects *)

Definition FileNotFoundError (path : list N) : exn :=
  Exc "FileNotFoundError"
      (lit "[Errno 2] No such file or directory: '" ++ path ++ lit "'").

Definition AttributeError_strip : exn :=
  Exc "AttributeError" (lit "'NoneType' object has no attribute 'strip'").

(** [print(line)] *)
Definition print (line : list N) : M unit :=
  λ w, (Ok tt, World (disk w) (stdout w ++ [line]) (slept w) (sent w)).

(** [time.sleep(delay)] *)
Definition time_sleep (delay : Z) : M unit :=
  λ w, (Ok tt, World (disk w) (stdout w) (slept w ++ [delay]) (sent w)).

(** [client.models.generate_content(model=..., contents=...)]: the
    submission is recorded whether or not the service answers. *)
Definition client_generate_content (E : env) (model contents : list N)
  : M (option (list N)) :=
  λ w, (generate_content E (length (sent w)) model contents,
        World (disk w) (stdout w) (slept w) (sent w ++ [(model, contents)])).

(** [v.strip()] on a value that is a string or [None]. *)
Definition strip_method (v : option (list N)) : M (list N) :=
  match v with
  | Some s => ret (strip s)
  | None => raise AttributeError_strip
  end.

(** [resume_file.save(path)]: the destination is opened for writing
    (created or truncated) and the upload is copied into it; a failure of
    the copy leaves what was written so far. *)
Definition FileStorage_save (E : env) (content : list byte) (path : list N)
  : M unit :=
  match save_fault E path with
  | Some (e, None) => raise e
  | Some (e, Some n) =>
      λ w, (Raise e, World (<[path := take n content]> (disk w)) (stdout w)
                           (slept w) (sent w))
  | None => λ w, (Ok tt, World (<[path := content]> (disk w)) (stdout w)
                               (slept w) (sent w))
  end.

(** [os.path.exists(path)] *)
Definition os_path_exists (path : list N) : M bool :=
  λ w, (Ok (bool_decide (is_Some (disk w !! path))), w).

(** [os.remove(path)] *)
Definition os_remove (path : list N) : M unit :=
  λ w, match disk w !! path with
       | Some _ => (Ok tt, World (delete path (disk w)) (stdout w)
                                 (slept w) (sent w))
       | None => (Raise (FileNotFoundError path), w)
       end.

(** [os.path.join(a, b)] on POSIX *)
Definition os_path_join (a b : list N) : list N :=
  match b with
  | 47%N :: _ => b
  | _ => match last a with
         | None | Some 47%N => a ++ b
         | Some _ => a ++ lit "/" ++ b
         end
  end.

(** ** Configuration (module level of [app.py])

    [os.makedirs(UPLOAD_FOLDER, exist_ok=True)] runs once at import; the
    disk of the model is a flat map from paths to contents, with no
    directories of its own. *)

Definition UPLOAD_FOLDER : list N := lit "uploads".
Definition MODEL_ID : list N := lit "gemini-2.5-flash".

(** The one-character string of a line feed. *)
Definition newline : list N := [0x0A%N].

(** ** PDF text extraction *)

(** The body of [for page in reader.pages], with the local [text]: an
    exception leaves the loop with the text gathered so far. *)
Fixpoint read_pages (pages : list page) (text : list N)
  : list N * result unit :=
  match pages with
  | [] => (text, Ok tt)
  | Raise e :: _ => (text, Raise e)
  | Ok extracted :: rest =>
      (* if extracted: text += extracted + newline *)
      read_pages rest
        (if truthy_opt extracted
         then text ++ (default [] extracted ++ newline)
         else text)
  end.

(** The [try] block of [extract_text_from_pdf] from [open] on. *)
Definition read_pdf (E : env) (pdf_path : list N) (text : list N) (w : world)
  : list N * result unit :=
  match disk w !! pdf_path with
  | None => (text, Raise (FileNotFoundError pdf_path))
  | Some file =>
      match PdfReader E file with
      | Raise e => (text, Raise e)
      | Ok pages => read_pages pages text
      end
  end.

Definition extract_text_from_pdf (E : env) (pdf_path : list N) : M (list N) :=
  λ w,
    let text := [] in
    let '(text, outcome) := read_pdf E pdf_path text w in
    (do! match outcome with
         | Ok _ => ret tt
         | Raise e => print (lit "PDF Extraction Error: " ++ exc_str e)
         end in
     ret (strip text)) w.

(** ** The retrying call of the remote model *)

(** The f-string [prompt], with its two fields filled in. *)
Definition make_prompt (resume_text jd_text : list N) : list N :=
  lit "
    You are an advanced Applicant Tracking System used by FAANG-level companies.

    Analyze the resume against the job description.

    RESUME:
    " ++ resume_text ++ lit "

    JOB DESCRIPTION:
    " ++ jd_text ++ lit "

    Return the result STRICTLY in this format:

    ATS Match: <number>%

    Strengths:
    - Bullet points of strong alignment
    - Clear and concise

    Improvement Suggestions:
    - Missing skills
    - Weak areas
    - Actionable resume fixes

    Rules:
    - Use professional ATS language
    - Do NOT add explanations outside sections
    - Keep output text-only
    ".

Definition delays : list Z := [1; 2; 4; 8; 16]%Z.

Definition overloaded : list N :=
  lit "Error: AI engine is currently overloaded. Please try again in 30 seconds.".

(** The body of [for delay in delays]: [Some s] when the iteration executes
    [return s], [None] when it falls through to the next one. *)
Definition attempt (E : env) (prompt : list N) (delay : Z)
  : M (option (list N)) :=
  try_except
    (let! response := client_generate_content E MODEL_ID prompt in
     let! s := strip_method response in
     ret (Some s))
    (λ _, do! time_sleep delay in ret None).

Fixpoint for_delay (E : env) (prompt : list N) (ds : list Z) : M (list N) :=
  match ds with
  | [] => ret overloaded
  | delay :: rest =>
      let! returned := attempt E prompt delay in
      match returned with
      | Some s => ret s
      | None => for_delay E prompt rest
      end
  end.

Definition run_ats_engine (E : env) (resume_text jd_text : list N)
  : M (list N) :=
  let prompt := make_prompt resume_text jd_text in
  for_delay E prompt delays.

(** ** The /analyze route *)

(** The parsed multipart request: [request.files] and [request.form]. *)
Record request := Request {
  files : gmap (list N) (list byte);
  form : gmap (list N) (list N);
}.

(** What the view returns: [jsonify(body), status]; a bare [jsonify(body)]
    is a 200. *)
Record response := Response {
  status : Z;
  json : gmap (list N) (list N);
}.

Definition error_response (code : Z) (message : list N) : response :=
  Response code {[ lit "error" := message ]}.

(** [if os.path.exists(pdf_path): os.remove(pdf_path)] *)
Definition remove_if_exists (pdf_path : list N) : M unit :=
  let! there := os_path_exists pdf_path in
  if there then os_remove pdf_path else ret tt.

Definition analyze (E : env) (rq : request) : M response :=
  match files rq !! lit "resume" with
  | None => ret (error_response 400 (lit "Resume file missing"))
  | Some resume_file =>
      let jd_text := strip (default [] (form rq !! lit "job_description")) in
      if negb (truthy jd_text)
      then ret (error_response 400 (lit "Job description required"))
      else
        try_except
          (let filename := uuid4 E ++ lit ".pdf" in
           let pdf_path := os_path_join UPLOAD_FOLDER filename in
           do! FileStorage_save E resume_file pdf_path in
           let! resume_text := extract_text_from_pdf E pdf_path in
           if negb (truthy resume_text)
           then
             do! remove_if_exists pdf_path in
             ret (error_response 400
                    (lit "Could not extract text from the uploaded PDF"))
           else
             let! ats_result := run_ats_engine E resume_text jd_text in
             do! remove_if_exists pdf_path in
             ret (Response 200
                    {[ lit "parsed_resume" := slice_to 3000 resume_text;
                       lit "parsed_job_description" := slice_to 3000 jd_text;
                       lit "ats_result" := ats_result ]}))
          (λ e, ret (error_response 500
                       (lit "Internal Server Error: " ++ exc_str e)))
  end.

(** The path under which [analyze] saves the upload. *)
Definition temp_path (E : env) : list N :=
  os_path_join UPLOAD_FOLDER (uuid4 E ++ lit ".pdf").

(** ** Predicates used to state the properties *)

(** Every character is one that [strip] removes. *)
Definition whitespace_only (s : list N) : bool := forallb isspace s.

Definition raises {A} (r : result A) : bool :=
  match r with Raise _ => true | Ok _ => false end.

(** An attempt fails when the service raises or answers with no text. *)
Definition attempt_fails (E : env) (prompt : list N) (k : nat) : bool :=
  match generate_content E k MODEL_ID prompt with
  | Ok (Some _) => false
  | Ok None | Raise _ => true
  end.

(** The number of attempts that fail in a row, from submission [k] on,
    among at most [budget] attempts. *)
Fixpoint failed_attempts (E : env) (prompt : list N) (k budget : nat) : nat :=
  match budget with
  | 0 => 0
  | S b =>
      if attempt_fails E prompt k
      then S (failed_attempts E prompt (S k) b)
      else 0
  end.

(** The service raises on each of the next [n] submissions. *)
Definition attempts_raise (E : env) (w : world) (prompt : list N) (n : nat)
  : bool :=
  forallb (λ i, raises (generate_content E (length (sent w) + i) MODEL_ID prompt))
          (seq 0 n).

(** The service answers each of the next [n] submissions with a response
    whose [text] is [None]. *)
Definition attempts_textless (E : env) (w : world) (prompt : list N) (n : nat)
  : bool :=
  forallb (λ i, match generate_content E (length (sent w) + i) MODEL_ID prompt with
                | Ok None => true
                | _ => false
                end)
          (seq 0 n).

(** Two replies that [run_ats_engine] cannot tell apart: the same text, or
    a failure on both sides (an exception or a missing text). *)
Definition same_reply (a b : result (option (list N))) : Prop :=
  match a, b with
  | Ok (Some s), Ok (Some t) => s = t
  | Ok (Some _), _ | _, Ok (Some _) => False
  | _, _ => True
  end.

Definition total (ds : list Z) : Z := foldr Z.add 0%Z ds.

(** What one page adds to the text: its extracted text and a line feed, or
    nothing when the page gives [None] or the empty string. *)
Definition page_line (extracted : option (list N)) : list N :=
  match extracted with
  | Some (c :: s) => (c :: s) ++ newline
  | Some [] | None => []
  end.

(** The text that the specification describes for a document whose pages
    are enumerated, in its words: each page's text followed by a line feed,
    a page that yields no text contributing nothing, the whole trimmed.  A
    page whose [extract_text] raises yields no text. *)
Definition page_text_as_specified (p : page) : list N :=
  match p with
  | Ok (Some (c :: s)) => (c :: s) ++ [0x0A%N]
  | Ok (Some []) | Ok None | Raise _ => []
  end.

Definition text_as_specified (pages : list page) : list N :=
  strip (concat (map page_text_as_specified pages)).

(** The world once [resume_file.save(pdf_path)] has written the upload. *)
Definition saved (E : env) (content : list byte) (w : world) : world :=
  World (<[temp_path E := content]> (disk w)) (stdout w) (slept w) (sent w).

(** The job description as the handler reads it. *)
Definition jd_of (rq : request) : list N :=
  strip (default [] (form rq !! lit "job_description")).

(** The request passes validation, the upload is written and text comes out
    of it: [resume_text] in world [w1] is where step 4 of the handler starts. *)
Definition reaches_analysis (E : env) (rq : request) (w : world)
    (resume_text : list N) (w1 : world) : Prop :=
  ∃ resume_file,
    files rq !! lit "resume" = Some resume_file ∧
    jd_of rq ≠ [] ∧
    save_fault E (temp_path E) = None ∧
    extract_text_from_pdf E (temp_path E) (saved E resume_file w)
      = (Ok resume_text, w1) ∧
    resume_text ≠ [].

(** What a successful attempt returns; the fallback stands in where the
    attempt fails. *)
Definition reply_text (E : env) (prompt : list N) (k : nat) : list N :=
  match generate_content E k MODEL_ID prompt with
  | Ok (Some s) => strip s
  | Ok None | Raise _ => overloaded
  end.

(** ** Sample worlds and requests *)

Module Sample.

Definition upload : list byte := [x25; x50; x44; x46]%byte.

Definition pages : list page :=
  [Ok (Some (lit " Jane Doe")); Ok None; Ok (Some []);
   Ok (Some (lit "Python, SQL "))].

Definition unavailable : exn := Exc "ServerError" (lit "503 UNAVAILABLE").

(** Two failures, then an answer. *)
Definition flaky (k : nat) (model contents : list N)
  : result (option (list N)) :=
  if k <? 2 then Raise unavailable
  else Ok (Some (lit " ATS Match: 80% ")).

Definition down (k : nat) (model contents : list N)
  : result (option (list N)) := Raise unavailable.

Definition textless (k : nat) (model contents : list N)
  : result (option (list N)) := Ok None.

Definition uuid : list N := lit "1b4e28ba-2fa1-4d3b-a3f5-0123456789ab".

Definition E_flaky : env := Env (λ _, Ok pages) flaky uuid (λ _, None).
Definition E_down : env := Env (λ _, Ok pages) down uuid (λ _, None).
Definition E_textless : env := Env (λ _, Ok pages) textless uuid (λ _, None).
(** A scanned document: pages, but no text on them. *)
Definition E_scanned : env :=
  Env (λ _, Ok [Ok None; Ok (Some [])]) flaky uuid (λ _, None).
(** Bytes that the reader rejects. *)
Definition E_corrupt : env :=
  Env (λ _, Raise (Exc "PdfReadError" (lit "EOF marker not found")))
      flaky uuid (λ _, None).

Definition other_path : list N := lit "uploads/other.pdf".

Definition w0 : world :=
  World {[ other_path := [x00]%byte ]} [] [] [].

Definition rq : request :=
  Request {[ lit "resume" := upload ]}
          {[ lit "job_description" := lit "  Python developer  " ]}.

Definition rq_long : request :=
  Request {[ lit "resume" := upload ]}
          {[ lit "job_description" := lit " " ++ replicate 3005 120%N ]}.

Definition rq_no_file : request :=
  Request ∅ {[ lit "job_description" := lit "Python developer" ]}.

Definition rq_blank : request :=
  Request {[ lit "resume" := upload ]}
          {[ lit "job_description" := [0x20; 0x0A; 0x09; 0xA0 ]%N ]}.

Definition texts : list (option (list N)) :=
  [Some (lit " Jane Doe"); None; Some []; Some (lit "Python, SQL ")].

Definition resume_text : list N := lit "Jane Doe
Python, SQL".

Definition jd : list N := lit "Python developer".

Definition answer : list N := lit "ATS Match: 80%".

(** The world after a request served by the flaky service. *)
Definition w_served (jd_text : list N) : world :=
  World (disk w0) [] [1; 2]%Z
        (replicate 3 (MODEL_ID, make_prompt resume_text jd_text)).

Definition r_served : response :=
  Response 200 {[ lit "parsed_resume" := resume_text;
                  lit "parsed_job_description" := jd;
                  lit "ats_result" := answer ]}.

Definition r_long : response :=
  Response 200 {[ lit "parsed_resume" := resume_text;
                  lit "parsed_job_description" := replicate 3000 120%N;
                  lit "ats_result" := answer ]}.

(** A document whose third page cannot be read. *)
Definition broken_page : exn :=
  Exc "PdfReadError" (lit "Invalid Elementary Object").

Definition E_torn : env :=
  Env (λ _, Ok (map Ok [Some (lit " Jane Doe"); None]
                ++ Raise broken_page :: [Ok (Some (lit "Python, SQL "))]))
      flaky uuid (λ _, None).

Definition E_torn_short : env :=
  Env (λ _, Ok (map Ok [Some (lit " Jane Doe"); None]
                ++ Raise broken_page :: []))
      flaky uuid (λ _, None).

(** A disk that takes no more writes. *)
Definition disk_full : exn :=
  Exc "OSError" (lit "[Errno 28] No space left on device").

Definition E_full : env :=
  Env (λ _, Ok pages) flaky uuid (λ _, Some (disk_full, Some 2)).

(** An upload folder that is gone: the destination cannot be opened. *)
Definition no_folder : exn :=
  Exc "FileNotFoundError"
      (lit "[Errno 2] No such file or directory: 'uploads/1b4e28ba-2fa1-4d3b-a3f5-0123456789ab.pdf'").

Definition E_no_folder : env :=
  Env (λ _, Ok pages) flaky uuid (λ _, Some (no_folder, None)).

(** A service that answers with blanks. *)
Definition E_blank_reply : env :=
  Env (λ _, Ok pages) (λ _ _ _, Ok (Some (lit "  "))) uuid (λ _, None).

(** Another request: another identifier. *)
Definition E_other : env :=
  Env (λ _, Ok pages) flaky (lit "9f8b6c1e-7d2a-4c55-8e10-fedcba987654")
      (λ _, None).

End Sample.

(** * Properties *)

(** ** Strings *)

Lemma lstrip_nil s : lstrip s = [] ↔ whitespace_only s = true.
Proof.
  unfold whitespace_only.
  induction s as [|c s IH]; simpl; [done|].
  destruct (isspace c); simpl; [exact IH|]. split; discriminate.
Qed.

Lemma lstrip_whitespace_only s : whitespace_only (lstrip s) = true → lstrip s = [].
Proof.
  unfold whitespace_only.
  induction s as [|c s IH]; simpl; [done|].
  destruct (isspace c) eqn:Hc; simpl; [exact IH|].
  rewrite Hc. discriminate.
Qed.

Lemma whitespace_only_rev s : whitespace_only (rev s) = whitespace_only s.
Proof.
  unfold whitespace_only. apply eq_true_iff_eq.
  rewrite !forallb_forall. split; intros H c Hc; apply H;
    [by apply in_rev in Hc | by apply in_rev].
Qed.

Lemma strip_nil s : strip s = [] ↔ whitespace_only s = true.
Proof.
  unfold strip, rstrip. rewrite <- lstrip_nil. split.
  - intros H. apply lstrip_whitespace_only.
    rewrite <- whitespace_only_rev. apply lstrip_nil.
    destruct (lstrip (rev (lstrip s))); [done|].
    simpl in H. by destruct (rev l).
  - intros ->. done.
Qed.

Lemma truthy_false s : truthy s = false ↔ s = [].
Proof. destruct s; simpl; split; congruence. Qed.

Lemma truthy_true s : truthy s = true ↔ s ≠ [].
Proof. destruct s; simpl; split; congruence. Qed.

(** ** What [strip] leaves *)

Lemma lstrip_suffix s : lstrip s `suffix_of` s.
Proof.
  induction s as [|c s IH]; simpl; [done|].
  destruct (isspace c); [by apply suffix_cons_r|done].
Qed.

Lemma lstrip_head s c : head (lstrip s) = Some c → isspace c = false.
Proof.
  induction s as [|d s IH]; simpl; [done|].
  destruct (isspace d) eqn:Hd; [exact IH|].
  simpl. intros [= <-]. exact Hd.
Qed.

Lemma lstrip_id s :
  (∀ c, head s = Some c → isspace c = false) → lstrip s = s.
Proof.
  destruct s as [|c s]; simpl; [done|].
  intros H. by rewrite (H c eq_refl).
Qed.

Lemma last_rev (s : list N) : last (rev s) = head s.
Proof. destruct s as [|c s]; simpl; [done|]. apply last_snoc. Qed.

Lemma head_rev (s : list N) : head (rev s) = last s.
Proof. rewrite <- (rev_involutive s) at 2. by rewrite last_rev. Qed.

Lemma rstrip_prefix s : rstrip s `prefix_of` s.
Proof.
  unfold rstrip. destruct (lstrip_suffix (rev s)) as [k Hk].
  exists (rev k). rewrite <- rev_app_distr, <- Hk. by rewrite rev_involutive.
Qed.

Lemma rstrip_last s c : last (rstrip s) = Some c → isspace c = false.
Proof. unfold rstrip. rewrite last_rev. apply lstrip_head. Qed.

Lemma rstrip_id s :
  (∀ c, last s = Some c → isspace c = false) → rstrip s = s.
Proof.
  intros H. unfold rstrip. rewrite lstrip_id; [apply rev_involutive|].
  intros c. rewrite head_rev. apply H.
Qed.

Lemma strip_head s c : head (strip s) = Some c → isspace c = false.
Proof.
  unfold strip. intros Hhead. apply (lstrip_head s).
  destruct (rstrip_prefix (lstrip s)) as [k Hk]. rewrite Hk.
  destruct (rstrip (lstrip s)); [done|]. exact Hhead.
Qed.

Lemma strip_last s c : last (strip s) = Some c → isspace c = false.
Proof. unfold strip. apply rstrip_last. Qed.

Lemma strip_idemp s : strip (strip s) = strip s.
Proof.
  unfold strip at 1. rewrite lstrip_id by apply strip_head.
  apply rstrip_id, strip_last.
Qed.

Lemma strip_length s : length (strip s) ≤ length s.
Proof.
  unfold strip.
  etrans; [apply prefix_length, rstrip_prefix|].
  apply suffix_length, lstrip_suffix.
Qed.

Lemma lstrip_decompose s :
  ∃ before, s = before ++ lstrip s ∧ whitespace_only before = true.
Proof.
  induction s as [|c s (before & Hs & Hws)]; simpl; [by exists []|].
  destruct (isspace c) eqn:Hc; [|by exists []].
  exists (c :: before). split; [by rewrite Hs at 1|].
  unfold whitespace_only in *. simpl. by rewrite Hc.
Qed.

(** [strip] takes whitespace, and nothing else, off both ends. *)
Lemma strip_decompose s :
  ∃ before after,
    s = before ++ strip s ++ after ∧
    whitespace_only before = true ∧ whitespace_only after = true.
Proof.
  destruct (lstrip_decompose s) as (before & Hs & Hbefore).
  destruct (lstrip_decompose (rev (lstrip s))) as (after & Ht & Hafter).
  exists before, (rev after). split_and!; [|done|by rewrite whitespace_only_rev].
  unfold strip, rstrip. rewrite <- rev_app_distr, <- Ht, rev_involutive.
  exact Hs.
Qed.

(** ** PDF text extraction *)

Lemma read_pages_all_ok texts text :
  read_pages (map Ok texts) text
  = (text ++ concat (map page_line texts), Ok tt).
Proof.
  revert text. induction texts as [|t texts IH]; intros text; simpl.
  - by rewrite app_nil_r.
  - rewrite IH. destruct t as [[|c s]|]; simpl; [done| |done].
    by rewrite <- app_assoc.
Qed.

(** Whatever the [try] block does, the function returns the stripped text,
    and it has printed one line when the block raised. *)
Lemma extract_text_from_pdf_unfold E pdf_path w :
  extract_text_from_pdf E pdf_path w
  = match read_pdf E pdf_path [] w with
    | (text, Ok _) => (Ok (strip text), w)
    | (text, Raise e) =>
        (Ok (strip text),
         World (disk w)
               (stdout w ++ [lit "PDF Extraction Error: " ++ exc_str e])
               (slept w) (sent w))
    end.
Proof.
  unfold extract_text_from_pdf.
  destruct (read_pdf E pdf_path [] w) as [text [[]|e]]; reflexivity.
Qed.

Lemma extract_text_from_pdf_frame E pdf_path w :
  ∃ text w',
    extract_text_from_pdf E pdf_path w = (Ok text, w') ∧
    disk w' = disk w ∧ slept w' = slept w ∧ sent w' = sent w.
Proof.
  rewrite extract_text_from_pdf_unfold.
  destruct (read_pdf E pdf_path [] w) as [text [[]|e]]; eauto 10.
Qed.

(** A page that raises ends the loop: the text of the pages before it is
    kept, the pages after it are not read. *)
Lemma read_pages_raise texts e rest text :
  read_pages (map Ok texts ++ Raise e :: rest) text
  = (text ++ concat (map page_line texts), Raise e).
Proof.
  revert text. induction texts as [|t texts IH]; intros text; simpl.
  - by rewrite app_nil_r.
  - rewrite IH. destruct t as [[|c s]|]; simpl; [done| |done].
    by rewrite <- app_assoc.
Qed.

Lemma extract_text_partial E pdf_path w file texts e rest :
  disk w !! pdf_path = Some file →
  PdfReader E file = Ok (map Ok texts ++ Raise e :: rest) →
  extract_text_from_pdf E pdf_path w
  = (Ok (strip (concat (map page_line texts))),
     World (disk w)
           (stdout w ++ [lit "PDF Extraction Error: " ++ exc_str e])
           (slept w) (sent w)).
Proof.
  intros Hopen Hparse.
  rewrite extract_text_from_pdf_unfold. unfold read_pdf.
  rewrite Hopen, Hparse, read_pages_raise. reflexivity.
Qed.

(** C4 (as amended): when the file opens, the reader parses it and the
    call of [extract_text] returns on every page (a string or [None]), the
    result is the concatenation, in page order, of each non-empty page text
    followed by a line feed (U+000A), with the whitespace at its two ends
    removed and nothing else: the concatenation is the result between two
    runs of whitespace, and the result neither begins nor ends with a
    whitespace character.  Nothing is printed and the world is unchanged. *)
Theorem extract_text_concatenates_pages E pdf_path w file
    (texts : list (option (list N))) :
  disk w !! pdf_path = Some file →
  PdfReader E file = Ok (map Ok texts) →
  ∃ text before after,
    extract_text_from_pdf E pdf_path w = (Ok text, w) ∧
    text = strip (concat (map page_line texts)) ∧
    concat (map (λ extracted : option (list N),
                   match extracted with
                   | Some (c :: s) => (c :: s) ++ [10%N]
                   | Some [] | None => []
                   end) texts)
    = before ++ text ++ after ∧
    whitespace_only before = true ∧
    whitespace_only after = true ∧
    (∀ c, head text = Some c → isspace c = false) ∧
    (∀ c, last text = Some c → isspace c = false).
Proof.
  intros Hopen Hparse.
  destruct (strip_decompose (concat (map page_line texts)))
    as (before & after & Hraw & Hbefore & Hafter).
  exists (strip (concat (map page_line texts))), before, after.
  split_and!; try done.
  - rewrite extract_text_from_pdf_unfold. unfold read_pdf.
    rewrite Hopen, Hparse, read_pages_all_ok. reflexivity.
  - intros c. apply strip_head.
  - intros c. apply strip_last.
Qed.

(** C7: [extract_text_from_pdf] returns normally in every world and for
    every path; when the file cannot be opened, or the reader rejects it,
    the value returned is the empty string and the failure is printed. *)
Theorem extract_text_never_raises E pdf_path w :
  (∃ text, (extract_text_from_pdf E pdf_path w).1 = Ok text) ∧
  (disk w !! pdf_path = None →
   extract_text_from_pdf E pdf_path w
   = (Ok [],
      World (disk w)
            (stdout w ++ [lit "PDF Extraction Error: "
                          ++ exc_str (FileNotFoundError pdf_path)])
            (slept w) (sent w))) ∧
  (∀ file e,
     disk w !! pdf_path = Some file →
     PdfReader E file = Raise e →
     extract_text_from_pdf E pdf_path w
     = (Ok [],
        World (disk w)
              (stdout w ++ [lit "PDF Extraction Error: " ++ exc_str e])
              (slept w) (sent w))).
Proof.
  split; [|split].
  - destruct (extract_text_from_pdf_frame E pdf_path w) as (text & w' & -> & _).
    by exists text.
  - intros Hopen. rewrite extract_text_from_pdf_unfold. unfold read_pdf.
    by rewrite Hopen.
  - intros file e Hopen Hparse.
    rewrite extract_text_from_pdf_unfold. unfold read_pdf.
    by rewrite Hopen, Hparse.
Qed.

(** ** The retrying call *)

Lemma attempt_unfold E prompt delay w :
  attempt E prompt delay w
  = match generate_content E (length (sent w)) MODEL_ID prompt with
    | Ok (Some s) =>
        (Ok (Some (strip s)),
         World (disk w) (stdout w) (slept w)
               (sent w ++ [(MODEL_ID, prompt)]))
    | Ok None | Raise _ =>
        (Ok None,
         World (disk w) (stdout w) (slept w ++ [delay])
               (sent w ++ [(MODEL_ID, prompt)]))
    end.
Proof.
  unfold attempt, try_except, bind, client_generate_content. simpl.
  destruct (generate_content E (length (sent w)) MODEL_ID prompt)
    as [[s|]|e]; reflexivity.
Qed.

(** The loop, in closed form: with [f] failing attempts in a row it sleeps
    through the first [f] delays, submits once more unless the delays are
    used up, and returns the reply of the attempt that succeeded or else
    the fallback. *)
Lemma for_delay_trace E prompt ds w :
  let f := failed_attempts E prompt (length (sent w)) (length ds) in
  for_delay E prompt ds w
  = (Ok (if decide (f = length ds) then overloaded
         else reply_text E prompt (length (sent w) + f)),
     World (disk w) (stdout w) (slept w ++ take f ds)
           (sent w ++ replicate (length ds `min` S f) (MODEL_ID, prompt))).
Proof.
  revert w. induction ds as [|d ds IH]; intros w; simpl.
  - rewrite !app_nil_r. by destruct w.
  - unfold bind. rewrite attempt_unfold. unfold attempt_fails, reply_text.
    destruct (generate_content E (length (sent w)) MODEL_ID prompt)
      as [[s|]|e] eqn:Hreply; simpl.
    + rewrite Nat.add_0_r, Hreply, app_nil_r, Nat.min_0_r. reflexivity.
    + rewrite IH. simpl. rewrite length_app, Nat.add_1_r. simpl.
      rewrite <- !app_assoc, Nat.add_succ_r. simpl.
      repeat case_decide; try lia; reflexivity.
    + rewrite IH. simpl. rewrite length_app, Nat.add_1_r. simpl.
      rewrite <- !app_assoc, Nat.add_succ_r. simpl.
      repeat case_decide; try lia; reflexivity.
Qed.

Lemma failed_attempts_le E prompt k budget :
  failed_attempts E prompt k budget ≤ budget.
Proof.
  revert k. induction budget as [|b IH]; intros k; simpl; [lia|].
  destruct (attempt_fails E prompt k); [|lia]. specialize (IH (S k)). lia.
Qed.

Lemma failed_attempts_all E prompt k budget :
  (∀ i, i < budget → attempt_fails E prompt (k + i) = true) →
  failed_attempts E prompt k budget = budget.
Proof.
  revert k. induction budget as [|b IH]; intros k H; simpl; [done|].
  assert (attempt_fails E prompt k = true) as ->.
  { rewrite <- (Nat.add_0_r k). apply H. lia. }
  f_equal. apply IH. intros i Hi.
  replace (S k + i) with (k + S i) by lia. apply H. lia.
Qed.

Lemma run_ats_engine_trace E resume_text jd_text w :
  let prompt := make_prompt resume_text jd_text in
  let f := failed_attempts E prompt (length (sent w)) 5 in
  run_ats_engine E resume_text jd_text w
  = (Ok (if decide (f = 5) then overloaded
         else reply_text E prompt (length (sent w) + f)),
     World (disk w) (stdout w) (slept w ++ take f delays)
           (sent w ++ replicate (5 `min` S f) (MODEL_ID, prompt))).
Proof. unfold run_ats_engine. apply (for_delay_trace E _ delays w). Qed.

Lemma attempts_raise_fail E w prompt n i :
  attempts_raise E w prompt n = true → i < n →
  attempt_fails E prompt (length (sent w) + i) = true.
Proof.
  unfold attempts_raise, attempt_fails. rewrite forallb_forall.
  intros H Hi. specialize (H i). rewrite in_seq in H.
  destruct (generate_content E (length (sent w) + i) MODEL_ID prompt)
    as [[s|]|e]; [|done..].
  simpl in H. apply H. lia.
Qed.

Lemma attempts_textless_fail E w prompt n i :
  attempts_textless E w prompt n = true → i < n →
  attempt_fails E prompt (length (sent w) + i) = true.
Proof.
  unfold attempts_textless, attempt_fails. rewrite forallb_forall.
  intros H Hi. specialize (H i). rewrite in_seq in H.
  destruct (generate_content E (length (sent w) + i) MODEL_ID prompt)
    as [[s|]|e]; [|done..].
  apply H. lia.
Qed.

(** When the five attempts fail, for whichever reason, the fallback is
    returned after five submissions and the five sleeps. *)
Lemma run_ats_engine_exhausted E resume_text jd_text w :
  (∀ i, i < 5 →
        attempt_fails E (make_prompt resume_text jd_text)
                      (length (sent w) + i) = true) →
  run_ats_engine E resume_text jd_text w
  = (Ok overloaded,
     World (disk w) (stdout w) (slept w ++ delays)
           (sent w ++ replicate 5 (MODEL_ID, make_prompt resume_text jd_text))).
Proof.
  intros H. rewrite run_ats_engine_trace. cbv zeta.
  rewrite (failed_attempts_all E _ _ 5 H). reflexivity.
Qed.

Lemma for_delay_same_reply E E' prompt ds w :
  (∀ k, same_reply (generate_content E k MODEL_ID prompt)
                   (generate_content E' k MODEL_ID prompt)) →
  for_delay E prompt ds w = for_delay E' prompt ds w.
Proof.
  intros Hsame. revert w. induction ds as [|d ds IH]; intros w; simpl; [done|].
  unfold bind. rewrite !attempt_unfold.
  specialize (Hsame (length (sent w))). unfold same_reply in Hsame.
  destruct (generate_content E (length (sent w)) MODEL_ID prompt)
    as [[s|]|e],
    (generate_content E' (length (sent w)) MODEL_ID prompt)
    as [[s'|]|e']; try done; try apply IH.
  by subst.
Qed.

(** C2: [run_ats_engine] submits the prompt at most 5 times; with [f]
    attempts failing in a row it has slept exactly through the first [f]
    delays of 1, 2, 4, 8, 16, in that order; and when the service raises on
    all 5 attempts it returns the fallback after 5 submissions, having
    slept 1, 2, 4, 8 and 16 seconds, 31 seconds in all. *)
Theorem run_ats_engine_backoff E resume_text jd_text w :
  let prompt := make_prompt resume_text jd_text in
  let f := failed_attempts E prompt (length (sent w)) 5 in
  let out := run_ats_engine E resume_text jd_text w in
  f ≤ 5 ∧
  sent out.2 = sent w ++ replicate (5 `min` S f) (MODEL_ID, prompt) ∧
  length (sent out.2) ≤ length (sent w) + 5 ∧
  slept out.2 = slept w ++ take f [1; 2; 4; 8; 16]%Z ∧
  (attempts_raise E w prompt 5 = true →
   out.1 = Ok overloaded ∧
   sent out.2 = sent w ++ replicate 5 (MODEL_ID, prompt) ∧
   slept out.2 = slept w ++ [1; 2; 4; 8; 16]%Z ∧
   total (drop (length (slept w)) (slept out.2)) = 31%Z).
Proof.
  intros prompt f out. subst out.
  rewrite run_ats_engine_trace. cbv zeta. fold prompt. fold f. cbn [fst snd sent slept].
  assert (f ≤ 5) as Hf by apply failed_attempts_le.
  split_and!; try done.
  - rewrite length_app, length_replicate. lia.
  - intros Hraise.
    assert (f = 5) as ->.
    { apply failed_attempts_all. intros i Hi.
      by apply (attempts_raise_fail E w prompt 5). }
    simpl. split_and!; try done.
    by rewrite drop_app_length.
Qed.

(** C10: [run_ats_engine] always returns a string: it neither raises nor
    returns [None].  An attempt whose response has [text] equal to [None]
    sleeps for its delay and falls through to the next attempt, so that
    replacing such responses by exceptions (or the converse) changes
    neither the value returned nor the world left behind; and when the
    five attempts all give such a response the fallback is returned after
    the five sleeps. *)
Theorem none_text_is_a_failed_attempt E resume_text jd_text w :
  let prompt := make_prompt resume_text jd_text in
  (∃ s, (run_ats_engine E resume_text jd_text w).1 = Ok s) ∧
  (∀ delay,
     generate_content E (length (sent w)) MODEL_ID prompt = Ok None →
     attempt E prompt delay w
     = (Ok None,
        World (disk w) (stdout w) (slept w ++ [delay])
              (sent w ++ [(MODEL_ID, prompt)]))) ∧
  (∀ E',
     (∀ k, same_reply (generate_content E k MODEL_ID prompt)
                      (generate_content E' k MODEL_ID prompt)) →
     run_ats_engine E' resume_text jd_text w
     = run_ats_engine E resume_text jd_text w) ∧
  (attempts_textless E w prompt 5 = true →
   run_ats_engine E resume_text jd_text w
   = (Ok overloaded,
      World (disk w) (stdout w) (slept w ++ [1; 2; 4; 8; 16]%Z)
            (sent w ++ replicate 5 (MODEL_ID, prompt)))).
Proof.
  intros prompt. split_and!.
  - rewrite run_ats_engine_trace. cbv zeta. cbn [fst]. eauto.
  - intros delay Hnone. by rewrite attempt_unfold, Hnone.
  - intros E' Hsame. unfold run_ats_engine. symmetry.
    by apply for_delay_same_reply.
  - intros Hnone. apply run_ats_engine_exhausted. intros i Hi.
    by apply (attempts_textless_fail E w prompt 5).
Qed.

(** ** The request handler *)

Lemma remove_if_exists_run pdf_path w :
  remove_if_exists pdf_path w
  = (Ok tt, World (delete pdf_path (disk w)) (stdout w) (slept w) (sent w)).
Proof.
  unfold remove_if_exists, bind, os_path_exists, os_remove, ret.
  destruct (disk w !! pdf_path) as [file|] eqn:Hfile.
  - rewrite bool_decide_eq_true_2 by eauto. by rewrite Hfile.
  - rewrite bool_decide_eq_false_2 by (intros [? ?]; congruence).
    rewrite delete_id by done. by destruct w.
Qed.

Lemma analyze_no_resume E rq w :
  files rq !! lit "resume" = None →
  analyze E rq w = (Ok (error_response 400 (lit "Resume file missing")), w).
Proof. intros H. unfold analyze. by rewrite H. Qed.

Lemma analyze_no_jd E rq w :
  is_Some (files rq !! lit "resume") →
  jd_of rq = [] →
  analyze E rq w
  = (Ok (error_response 400 (lit "Job description required")), w).
Proof.
  intros [file Hfile] Hjd. unfold analyze. rewrite Hfile.
  fold (jd_of rq). by rewrite Hjd.
Qed.

(** The handler from the [try] block on, for a request that passed
    validation. *)
Lemma analyze_valid E rq w resume_file :
  files rq !! lit "resume" = Some resume_file →
  jd_of rq ≠ [] →
  analyze E rq w
  = try_except
      (do! FileStorage_save E resume_file (temp_path E) in
       let! resume_text := extract_text_from_pdf E (temp_path E) in
       if negb (truthy resume_text)
       then
         do! remove_if_exists (temp_path E) in
         ret (error_response 400
                (lit "Could not extract text from the uploaded PDF"))
       else
         let! ats_result := run_ats_engine E resume_text (jd_of rq) in
         do! remove_if_exists (temp_path E) in
         ret (Response 200
                {[ lit "parsed_resume" := slice_to 3000 resume_text;
                   lit "parsed_job_description" := slice_to 3000 (jd_of rq);
                   lit "ats_result" := ats_result ]}))
      (λ e, ret (error_response 500
                   (lit "Internal Server Error: " ++ exc_str e))) w.
Proof.
  intros Hfile Hjd. unfold analyze. rewrite Hfile. fold (jd_of rq).
  apply truthy_true in Hjd. by rewrite Hjd.
Qed.

Lemma analyze_save_fault E rq w resume_file (fault : exn * option nat) :
  files rq !! lit "resume" = Some resume_file →
  jd_of rq ≠ [] →
  save_fault E (temp_path E) = Some fault →
  analyze E rq w
  = (Ok (error_response 500
           (lit "Internal Server Error: " ++ exc_str fault.1)),
     World (match fault.2 with
            | None => disk w
            | Some n => <[temp_path E := take n resume_file]> (disk w)
            end)
           (stdout w) (slept w) (sent w)).
Proof.
  intros Hfile Hjd Hsave. rewrite (analyze_valid E rq w resume_file) by done.
  unfold try_except, bind, FileStorage_save. rewrite Hsave.
  destruct fault as [e [n|]]; [done|]. by destruct w.
Qed.

Lemma analyze_no_text E rq w resume_file w1 :
  files rq !! lit "resume" = Some resume_file →
  jd_of rq ≠ [] →
  save_fault E (temp_path E) = None →
  extract_text_from_pdf E (temp_path E) (saved E resume_file w) = (Ok [], w1) →
  analyze E rq w
  = (Ok (error_response 400
           (lit "Could not extract text from the uploaded PDF")),
     World (delete (temp_path E) (disk w)) (stdout w1) (slept w) (sent w)).
Proof.
  intros Hfile Hjd Hsave Hextract.
  rewrite (analyze_valid E rq w resume_file) by done.
  destruct (extract_text_from_pdf_frame E (temp_path E) (saved E resume_file w))
    as (text & w1' & Heq & Hdisk & Hslept & Hsent).
  rewrite Hextract in Heq. injection Heq as <- <-.
  unfold try_except, bind at 1, FileStorage_save. rewrite Hsave.
  fold (saved E resume_file w). unfold bind at 1. rewrite Hextract.
  cbn [truthy negb]. unfold bind. rewrite remove_if_exists_run.
  unfold ret. rewrite Hdisk, Hslept, Hsent. simpl.
  by rewrite delete_insert_eq.
Qed.

Lemma analyze_success E rq w resume_text w1 :
  reaches_analysis E rq w resume_text w1 →
  ∃ ats_result w2,
    run_ats_engine E resume_text (jd_of rq) w1 = (Ok ats_result, w2) ∧
    analyze E rq w
    = (Ok (Response 200
             {[ lit "parsed_resume" := take 3000 resume_text;
                lit "parsed_job_description" := take 3000 (jd_of rq);
                lit "ats_result" := ats_result ]}),
       World (delete (temp_path E) (disk w)) (stdout w1)
             (slept w2) (sent w2)).
Proof.
  intros (resume_file & Hfile & Hjd & Hsave & Hextract & Htext).
  rewrite (analyze_valid E rq w resume_file) by done.
  destruct (extract_text_from_pdf_frame E (temp_path E) (saved E resume_file w))
    as (text & w1' & Heq & Hdisk & Hslept & Hsent).
  rewrite Hextract in Heq. injection Heq as <- <-.
  unfold try_except, bind at 1, FileStorage_save. rewrite Hsave.
  fold (saved E resume_file w). unfold bind at 1. rewrite Hextract.
  apply truthy_true in Htext. rewrite Htext. cbn [negb].
  unfold bind at 1. rewrite run_ats_engine_trace. cbv zeta.
  eexists _, _. split; [reflexivity|].
  unfold bind. rewrite remove_if_exists_run. unfold ret, slice_to.
  cbn [fst snd disk stdout slept sent]. rewrite Hdisk. simpl disk.
  by rewrite delete_insert_eq.
Qed.

(** The handler answers every request: no exception leaves the view. *)
Lemma analyze_total E rq w :
  ∃ r w', analyze E rq w = (Ok r, w').
Proof.
  destruct (files rq !! lit "resume") as [resume_file|] eqn:Hfile.
  2: { rewrite analyze_no_resume by done. eauto. }
  destruct (decide (jd_of rq = [])) as [Hjd|Hjd].
  { rewrite analyze_no_jd by eauto. eauto. }
  destruct (save_fault E (temp_path E)) as [e|] eqn:Hsave.
  { rewrite (analyze_save_fault E rq w resume_file e) by done. eauto. }
  destruct (extract_text_from_pdf_frame E (temp_path E) (saved E resume_file w))
    as (text & w1 & Hextract & _).
  destruct (decide (text = [])) as [->|Htext].
  { rewrite (analyze_no_text E rq w resume_file w1) by done. eauto. }
  destruct (analyze_success E rq w text w1) as (ats & w2 & _ & ->); [|eauto].
  exists resume_file. done.
Qed.

(** Only the success path answers 200. *)
Lemma analyze_200_inv E rq w r w' :
  analyze E rq w = (Ok r, w') →
  status r = 200%Z →
  ∃ resume_text w1, reaches_analysis E rq w resume_text w1.
Proof.
  intros Hrun Hstatus.
  destruct (files rq !! lit "resume") as [resume_file|] eqn:Hfile.
  2: { rewrite analyze_no_resume in Hrun by done.
       injection Hrun as <- <-. done. }
  destruct (decide (jd_of rq = [])) as [Hjd|Hjd].
  { rewrite analyze_no_jd in Hrun by eauto. injection Hrun as <- <-. done. }
  destruct (save_fault E (temp_path E)) as [e|] eqn:Hsave.
  { rewrite (analyze_save_fault E rq w resume_file e) in Hrun by done.
    injection Hrun as <- <-. done. }
  destruct (extract_text_from_pdf_frame E (temp_path E) (saved E resume_file w))
    as (text & w1 & Hextract & _).
  destruct (decide (text = [])) as [->|Htext].
  { rewrite (analyze_no_text E rq w resume_file w1) in Hrun by done.
    injection Hrun as <- <-. done. }
  exists text, w1, resume_file. done.
Qed.

Lemma sent_at_analysis E rq w resume_text w1 :
  reaches_analysis E rq w resume_text w1 → sent w1 = sent w ∧ slept w1 = slept w.
Proof.
  intros (resume_file & _ & _ & _ & Hextract & _).
  destruct (extract_text_from_pdf_frame E (temp_path E) (saved E resume_file w))
    as (text & w1' & Heq & _ & Hslept & Hsent).
  rewrite Hextract in Heq. injection Heq as <- <-. done.
Qed.

Ltac distinct_keys := vm_compute; discriminate.

Lemma success_body_lookup (a b c : list N) :
  let body : gmap (list N) (list N) :=
    {[ lit "parsed_resume" := a; lit "parsed_job_description" := b;
       lit "ats_result" := c ]} in
  body !! lit "parsed_resume" = Some a ∧
  body !! lit "parsed_job_description" = Some b ∧
  body !! lit "ats_result" = Some c.
Proof.
  split_and!.
  - apply lookup_insert_eq.
  - rewrite lookup_insert_ne by distinct_keys. apply lookup_insert_eq.
  - rewrite !lookup_insert_ne by distinct_keys. apply lookup_singleton_eq.
Qed.

(** C1: when the remote service raises on each of the five attempts,
    [run_ats_engine] returns the fallback string as its value; once the
    handler has reached the analysis step it answers 200 whatever the
    remote service does; and in the first case the 200 response carries
    the fallback string in [ats_result]. *)
Theorem overload_is_reported_in_a_200 E :
  (∀ resume_text jd_text w,
     attempts_raise E w (make_prompt resume_text jd_text) 5 = true →
     (run_ats_engine E resume_text jd_text w).1
     = Ok (lit "Error: AI engine is currently overloaded. Please try again in 30 seconds.")) ∧
  (∀ rq w resume_text w1,
     reaches_analysis E rq w resume_text w1 →
     (∃ body w', analyze E rq w = (Ok (Response 200 body), w')) ∧
     (attempts_raise E w1 (make_prompt resume_text (jd_of rq)) 5 = true →
      (analyze E rq w).1
      = Ok (Response 200
              {[ lit "parsed_resume" := take 3000 resume_text;
                 lit "parsed_job_description" := take 3000 (jd_of rq);
                 lit "ats_result" :=
                   lit "Error: AI engine is currently overloaded. Please try again in 30 seconds." ]}))).
Proof.
  assert (∀ resume_text jd_text w,
            attempts_raise E w (make_prompt resume_text jd_text) 5 = true →
            run_ats_engine E resume_text jd_text w
            = (Ok overloaded,
               World (disk w) (stdout w) (slept w ++ delays)
                     (sent w ++ replicate 5
                                  (MODEL_ID, make_prompt resume_text jd_text))))
    as Hdown.
  { intros resume_text jd_text w Hraise. apply run_ats_engine_exhausted.
    intros i Hi. by apply (attempts_raise_fail E w _ 5). }
  split.
  - intros resume_text jd_text w Hraise. by rewrite Hdown.
  - intros rq w resume_text w1 Hreach.
    destruct (analyze_success E rq w resume_text w1 Hreach)
      as (ats & w2 & Hengine & Hrun).
    split; [rewrite Hrun; eauto|].
    intros Hraise. rewrite Hdown in Hengine by done.
    injection Hengine as <- <-. by rewrite Hrun.
Qed.

(** C3: in a 200 response, [parsed_resume] is the first 3000 characters of
    the text that [extract_text_from_pdf] returned for the saved upload and
    [parsed_job_description] is the first 3000 characters of the stripped
    job description; both are prefixes of the text they come from, and the
    second has length exactly 3000 when the stripped job description is
    longer than that. *)
Theorem success_fields_are_prefixes E rq w r w' :
  analyze E rq w = (Ok r, w') →
  status r = 200%Z →
  ∃ resume_file resume_text w1 parsed_resume parsed_jd,
    files rq !! lit "resume" = Some resume_file ∧
    extract_text_from_pdf E (temp_path E) (saved E resume_file w)
      = (Ok resume_text, w1) ∧
    json r !! lit "parsed_resume" = Some parsed_resume ∧
    json r !! lit "parsed_job_description" = Some parsed_jd ∧
    parsed_resume = take 3000 resume_text ∧
    parsed_jd = take 3000 (strip (default [] (form rq !! lit "job_description"))) ∧
    parsed_resume `prefix_of` resume_text ∧
    parsed_jd `prefix_of` strip (default [] (form rq !! lit "job_description")) ∧
    length parsed_resume ≤ 3000 ∧
    length parsed_jd ≤ 3000 ∧
    (3000 < length (strip (default [] (form rq !! lit "job_description"))) →
     length parsed_jd = 3000).
Proof.
  intros Hrun Hstatus.
  destruct (analyze_200_inv E rq w r w' Hrun Hstatus)
    as (resume_text & w1 & Hreach).
  destruct (analyze_success E rq w resume_text w1 Hreach)
    as (ats & w2 & _ & Hrun').
  rewrite Hrun in Hrun'. injection Hrun' as -> ->.
  destruct Hreach as (resume_file & Hfile & _ & _ & Hextract & _).
  destruct (success_body_lookup (take 3000 resume_text)
              (take 3000 (jd_of rq)) ats) as (Hr & Hj & _).
  exists resume_file, resume_text, w1, (take 3000 resume_text),
    (take 3000 (jd_of rq)).
  split_and!; try done; try apply prefix_take.
  - rewrite length_take. lia.
  - rewrite length_take. lia.
  - intros Hlong. rewrite length_take. fold (jd_of rq) in Hlong. lia.
Qed.

(** C5: when the request is valid, the upload is written and
    [extract_text_from_pdf] returns the empty string, the handler answers
    400 with "Could not extract text from the uploaded PDF", the temp file
    is gone from the disk, and nothing was submitted to the remote service
    (nor any sleep taken). *)
Theorem empty_extraction_is_a_400 E rq w resume_file w1 :
  files rq !! lit "resume" = Some resume_file →
  strip (default [] (form rq !! lit "job_description")) ≠ [] →
  save_fault E (temp_path E) = None →
  extract_text_from_pdf E (temp_path E) (saved E resume_file w) = (Ok [], w1) →
  ∃ w',
    analyze E rq w
    = (Ok (Response 400
             {[ lit "error" :=
                  lit "Could not extract text from the uploaded PDF" ]}),
       w') ∧
    disk w' !! temp_path E = None ∧
    sent w' = sent w ∧
    slept w' = slept w.
Proof.
  intros Hfile Hjd Hsave Hextract.
  rewrite (analyze_no_text E rq w resume_file w1) by done.
  eexists. split; [reflexivity|]. simpl.
  split_and!; try done. apply lookup_delete_eq.
Qed.

(** C6: a request without a [resume] file part is answered 400 with
    "Resume file missing"; a request with one whose [job_description]
    field is absent, empty or made of whitespace only is answered 400 with
    "Job description required". *)
Theorem missing_input_is_a_400 E rq w :
  (files rq !! lit "resume" = None →
   (analyze E rq w).1
   = Ok (Response 400 {[ lit "error" := lit "Resume file missing" ]})) ∧
  (is_Some (files rq !! lit "resume") →
   (form rq !! lit "job_description" = None ∨
    ∃ jd, form rq !! lit "job_description" = Some jd ∧
          whitespace_only jd = true) →
   (analyze E rq w).1
   = Ok (Response 400 {[ lit "error" := lit "Job description required" ]})).
Proof.
  split.
  - intros Hfile. by rewrite analyze_no_resume.
  - intros Hfile Hjd. rewrite analyze_no_jd; [done..|].
    unfold jd_of. destruct Hjd as [->|(jd & -> & Hws)]; [done|].
    by apply strip_nil.
Qed.

(** C8: after a request answered 200 the temp file of the request is not
    on the disk, and every other path holds what it held before. *)
Theorem success_removes_temp_file E rq w r w' :
  analyze E rq w = (Ok r, w') →
  status r = 200%Z →
  disk w' !! temp_path E = None ∧
  (∀ path, path ≠ temp_path E → disk w' !! path = disk w !! path) ∧
  disk w' = delete (temp_path E) (disk w).
Proof.
  intros Hrun Hstatus.
  destruct (analyze_200_inv E rq w r w' Hrun Hstatus)
    as (resume_text & w1 & Hreach).
  destruct (analyze_success E rq w resume_text w1 Hreach)
    as (ats & w2 & _ & Hrun').
  rewrite Hrun in Hrun'. injection Hrun' as -> ->. simpl.
  split_and!; [apply lookup_delete_eq| |done].
  intros path Hne. by rewrite lookup_delete_ne.
Qed.

(** C9: a request that fails validation is answered 400 in the world it
    arrived in: no file written, nothing submitted to the remote service,
    no sleep, nothing printed. *)
Theorem invalid_request_has_no_effect E rq w :
  files rq !! lit "resume" = None ∨
  strip (default [] (form rq !! lit "job_description")) = [] →
  ∃ r, analyze E rq w = (Ok r, w) ∧ status r = 400%Z.
Proof.
  intros Hinvalid.
  destruct (files rq !! lit "resume") as [resume_file|] eqn:Hfile.
  - destruct Hinvalid as [|Hjd]; [done|].
    eexists. split; [apply analyze_no_jd; eauto|done].
  - eexists. split; [by apply analyze_no_resume|done].
Qed.

(** ** The properties at the sample inputs *)

Import Sample.

Example strip_sample : strip (lit "  Python developer  ") = jd.
Proof. reflexivity. Qed.

Example isspace_sample :
  map isspace [0x20; 0x0A; 0x1F; 0xA0; 0x3000; 0x200B; 0x41]%N
  = [true; true; true; true; true; false; false].
Proof. reflexivity. Qed.

Example temp_path_sample :
  temp_path E_flaky = lit "uploads/1b4e28ba-2fa1-4d3b-a3f5-0123456789ab.pdf".
Proof. reflexivity. Qed.

Example extract_sample :
  extract_text_from_pdf E_flaky other_path w0 = (Ok resume_text, w0).
Proof. vm_compute. reflexivity. Qed.

(** Two failures and then an answer: two sleeps, three submissions. *)
Example run_ats_engine_flaky :
  run_ats_engine E_flaky resume_text jd w0 = (Ok answer, w_served jd).
Proof. vm_compute. reflexivity. Qed.

(** A write that fails is answered 500 with the text of the exception. *)
Example analyze_disk_full :
  analyze (Env (λ _, Ok pages) flaky uuid
               (λ _, Some (Exc "OSError" (lit "[Errno 28] No space left on device"),
                           Some 2)))
          rq w0
  = (Ok (Response 500
           {[ lit "error" :=
                lit "Internal Server Error: [Errno 28] No space left on device" ]}),
     World (<[ lit "uploads/1b4e28ba-2fa1-4d3b-a3f5-0123456789ab.pdf"
               := [x25; x50]%byte ]> (disk w0)) [] [] []).
Proof. vm_compute. reflexivity. Qed.

Lemma overload_is_reported_in_a_200_witness :
  reaches_analysis E_down rq w0 resume_text (saved E_down upload w0) ∧
  attempts_raise E_down (saved E_down upload w0)
                 (make_prompt resume_text (jd_of rq)) 5 = true ∧
  (run_ats_engine E_down resume_text (jd_of rq) (saved E_down upload w0)).1
  = Ok overloaded ∧
  (analyze E_down rq w0).1
  = Ok (Response 200
          {[ lit "parsed_resume" := take 3000 resume_text;
             lit "parsed_job_description" := take 3000 (jd_of rq);
             lit "ats_result" := overloaded ]}).
Proof.
  assert (reaches_analysis E_down rq w0 resume_text (saved E_down upload w0))
    as Hreach.
  { exists upload. split_and!; try (vm_compute; reflexivity);
      vm_compute; discriminate. }
  assert (attempts_raise E_down (saved E_down upload w0)
            (make_prompt resume_text (jd_of rq)) 5 = true) as Hraise
    by reflexivity.
  destruct (overload_is_reported_in_a_200 E_down) as [Hengine Hhandler].
  split_and!; [exact Hreach|exact Hraise| |].
  - exact (Hengine _ _ _ Hraise).
  - exact (proj2 (Hhandler _ _ _ _ Hreach) Hraise).
Defined.

Lemma run_ats_engine_backoff_witness :
  attempts_raise E_down w0 (make_prompt resume_text jd) 5 = true ∧
  (run_ats_engine E_down resume_text jd w0).1 = Ok overloaded ∧
  length (sent (run_ats_engine E_down resume_text jd w0).2) = 5 ∧
  slept (run_ats_engine E_down resume_text jd w0).2 = [1; 2; 4; 8; 16]%Z ∧
  total (slept (run_ats_engine E_down resume_text jd w0).2) = 31%Z.
Proof.
  assert (attempts_raise E_down w0 (make_prompt resume_text jd) 5 = true)
    as Hraise by reflexivity.
  pose proof (run_ats_engine_backoff E_down resume_text jd w0) as H.
  cbv zeta in H. destruct H as (_ & _ & _ & _ & H).
  destruct (H Hraise) as (Hres & Hsent & Hslept & Htotal).
  split_and!; [exact Hraise|exact Hres| |exact Hslept|exact Htotal].
  rewrite Hsent. reflexivity.
Defined.

Lemma analyze_flaky_long :
  analyze E_flaky rq_long w0
  = (Ok r_long, w_served (replicate 3005 120%N)).
Proof. vm_compute. reflexivity. Defined.

Lemma analyze_flaky :
  analyze E_flaky rq w0 = (Ok r_served, w_served jd).
Proof. vm_compute. reflexivity. Defined.

Lemma success_fields_are_prefixes_witness :
  analyze E_flaky rq_long w0 = (Ok r_long, w_served (replicate 3005 120%N)) ∧
  status r_long = 200%Z ∧
  ∃ resume_file text w1 parsed_resume parsed_jd,
    files rq_long !! lit "resume" = Some resume_file ∧
    extract_text_from_pdf E_flaky (temp_path E_flaky)
                          (saved E_flaky resume_file w0) = (Ok text, w1) ∧
    json r_long !! lit "parsed_resume" = Some parsed_resume ∧
    json r_long !! lit "parsed_job_description" = Some parsed_jd ∧
    parsed_resume = take 3000 text ∧
    parsed_jd
    = take 3000 (strip (default [] (form rq_long !! lit "job_description"))) ∧
    parsed_resume `prefix_of` text ∧
    parsed_jd
      `prefix_of` strip (default [] (form rq_long !! lit "job_description")) ∧
    length parsed_resume ≤ 3000 ∧
    length parsed_jd ≤ 3000 ∧
    (3000 < length (strip (default [] (form rq_long !! lit "job_description"))) →
     length parsed_jd = 3000).
Proof.
  split_and!; [exact analyze_flaky_long|reflexivity|].
  exact (success_fields_are_prefixes E_flaky rq_long w0 r_long _
           analyze_flaky_long eq_refl).
Defined.

Lemma extract_text_concatenates_pages_witness :
  disk w0 !! other_path = Some [x00]%byte ∧
  PdfReader E_flaky [x00]%byte
  = Ok (map Ok [Some (lit " Jane Doe"); None; Some [];
                Some (lit "Python, SQL ")]) ∧
  extract_text_from_pdf E_flaky other_path w0
  = (Ok (lit "Jane Doe" ++ [10%N] ++ lit "Python, SQL"), w0) ∧
  lit " Jane Doe" ++ [10%N] ++ lit "Python, SQL " ++ [10%N]
  = lit " " ++ (lit "Jane Doe" ++ [10%N] ++ lit "Python, SQL")
    ++ (lit " " ++ [10%N]).
Proof.
  assert (disk w0 !! other_path = Some [x00]%byte) as Hopen
    by (vm_compute; reflexivity).
  assert (PdfReader E_flaky [x00]%byte
          = Ok (map Ok [Some (lit " Jane Doe"); None; Some [];
                        Some (lit "Python, SQL ")])) as Hparse
    by reflexivity.
  split; [exact Hopen|]. split; [exact Hparse|].
  destruct (extract_text_concatenates_pages E_flaky other_path w0 _ _
              Hopen Hparse)
    as (text & before & after & Hrun & Htext & _).
  split; [|reflexivity].
  rewrite Hrun, Htext. reflexivity.
Defined.

(** C4, as first stated, fails: the pages of this document are enumerated,
    but reading the third raises; the code returns the text of the pages
    before it, while the text described takes in the fourth page too. *)
Lemma torn_document_is_cut_short :
  disk w0 !! other_path = Some [x00]%byte ∧
  PdfReader E_torn [x00]%byte
  = Ok [Ok (Some (lit " Jane Doe")); Ok None; Raise broken_page;
        Ok (Some (lit "Python, SQL "))] ∧
  (extract_text_from_pdf E_torn other_path w0).1 = Ok (lit "Jane Doe") ∧
  text_as_specified [Ok (Some (lit " Jane Doe")); Ok None; Raise broken_page;
                     Ok (Some (lit "Python, SQL "))]
  = lit "Jane Doe" ++ [10%N] ++ lit "Python, SQL" ∧
  ¬ (∀ E pdf_path w file pages,
       disk w !! pdf_path = Some file →
       PdfReader E file = Ok pages →
       (extract_text_from_pdf E pdf_path w).1 = Ok (text_as_specified pages)).
Proof.
  assert (disk w0 !! other_path = Some [x00]%byte) as Hopen
    by (vm_compute; reflexivity).
  split_and!; [exact Hopen|reflexivity|vm_compute; reflexivity|
               vm_compute; reflexivity|].
  intros Hclaim.
  specialize (Hclaim E_torn other_path w0 [x00]%byte _ Hopen eq_refl).
  vm_compute in Hclaim. discriminate Hclaim.
Qed.

Lemma empty_extraction_is_a_400_witness :
  files rq !! lit "resume" = Some upload ∧
  strip (default [] (form rq !! lit "job_description")) ≠ [] ∧
  save_fault E_scanned (temp_path E_scanned) = None ∧
  extract_text_from_pdf E_scanned (temp_path E_scanned)
                        (saved E_scanned upload w0)
  = (Ok [], saved E_scanned upload w0) ∧
  ∃ w',
    analyze E_scanned rq w0
    = (Ok (Response 400
             {[ lit "error" :=
                  lit "Could not extract text from the uploaded PDF" ]}),
       w') ∧
    disk w' !! temp_path E_scanned = None ∧
    sent w' = sent w0 ∧
    slept w' = slept w0.
Proof.
  assert (files rq !! lit "resume" = Some upload) as Hfile
    by (vm_compute; reflexivity).
  assert (strip (default [] (form rq !! lit "job_description")) ≠ []) as Hjd
    by (vm_compute; discriminate).
  assert (extract_text_from_pdf E_scanned (temp_path E_scanned)
            (saved E_scanned upload w0)
          = (Ok [], saved E_scanned upload w0)) as Hextract
    by (vm_compute; reflexivity).
  split_and!; [exact Hfile|exact Hjd|reflexivity|exact Hextract|].
  exact (empty_extraction_is_a_400 E_scanned rq w0 upload _
           Hfile Hjd eq_refl Hextract).
Defined.

Lemma missing_input_is_a_400_witness :
  (files rq_no_file !! lit "resume" = None ∧
   (analyze E_flaky rq_no_file w0).1
   = Ok (Response 400 {[ lit "error" := lit "Resume file missing" ]})) ∧
  (is_Some (files rq_blank !! lit "resume") ∧
   (∃ jd, form rq_blank !! lit "job_description" = Some jd ∧
          whitespace_only jd = true) ∧
   (analyze E_flaky rq_blank w0).1
   = Ok (Response 400 {[ lit "error" := lit "Job description required" ]})).
Proof.
  assert (files rq_no_file !! lit "resume" = None) as Hnone
    by (vm_compute; reflexivity).
  assert (is_Some (files rq_blank !! lit "resume")) as Hsome
    by (exists upload; vm_compute; reflexivity).
  assert (∃ jd, form rq_blank !! lit "job_description" = Some jd ∧
                whitespace_only jd = true) as Hblank.
  { exists [0x20; 0x0A; 0x09; 0xA0]%N. split; vm_compute; reflexivity. }
  split; split_and!.
  - exact Hnone.
  - exact (proj1 (missing_input_is_a_400 E_flaky rq_no_file w0) Hnone).
  - exact Hsome.
  - exact Hblank.
  - exact (proj2 (missing_input_is_a_400 E_flaky rq_blank w0) Hsome
             (or_intror Hblank)).
Defined.

Lemma extract_text_never_raises_witness :
  (disk w0 !! temp_path E_flaky = None ∧
   (extract_text_from_pdf E_flaky (temp_path E_flaky) w0).1 = Ok []) ∧
  (disk w0 !! other_path = Some [x00]%byte ∧
   PdfReader E_corrupt [x00]%byte
   = Raise (Exc "PdfReadError" (lit "EOF marker not found")) ∧
   extract_text_from_pdf E_corrupt other_path w0
   = (Ok [],
      World (disk w0)
            [lit "PDF Extraction Error: EOF marker not found"] [] [])).
Proof.
  assert (disk w0 !! temp_path E_flaky = None) as Hmissing
    by (vm_compute; reflexivity).
  assert (disk w0 !! other_path = Some [x00]%byte) as Hopen
    by (vm_compute; reflexivity).
  destruct (extract_text_never_raises E_flaky (temp_path E_flaky) w0)
    as (_ & Hnofile & _).
  destruct (extract_text_never_raises E_corrupt other_path w0)
    as (_ & _ & Hreject).
  split; split_and!.
  - exact Hmissing.
  - by rewrite (Hnofile Hmissing).
  - exact Hopen.
  - reflexivity.
  - exact (Hreject _ _ Hopen eq_refl).
Defined.

Lemma success_removes_temp_file_witness :
  analyze E_flaky rq w0 = (Ok r_served, w_served jd) ∧
  status r_served = 200%Z ∧
  disk (w_served jd) !! temp_path E_flaky = None ∧
  (∀ path, path ≠ temp_path E_flaky →
           disk (w_served jd) !! path = disk w0 !! path) ∧
  disk (w_served jd) = delete (temp_path E_flaky) (disk w0).
Proof.
  split; [exact analyze_flaky|]. split; [reflexivity|].
  exact (success_removes_temp_file E_flaky rq w0 r_served (w_served jd)
           analyze_flaky eq_refl).
Defined.

Lemma invalid_request_has_no_effect_witness :
  files rq_no_file !! lit "resume" = None ∧
  ∃ r, analyze E_flaky rq_no_file w0 = (Ok r, w0) ∧ status r = 400%Z.
Proof.
  assert (files rq_no_file !! lit "resume" = None) as Hnone
    by (vm_compute; reflexivity).
  split; [exact Hnone|].
  exact (invalid_request_has_no_effect E_flaky rq_no_file w0 (or_introl Hnone)).
Defined.

Lemma none_text_is_a_failed_attempt_witness :
  generate_content E_textless (length (sent w0)) MODEL_ID
                   (make_prompt resume_text jd) = Ok None ∧
  attempts_textless E_textless w0 (make_prompt resume_text jd) 5 = true ∧
  (∀ k, same_reply
          (generate_content E_textless k MODEL_ID (make_prompt resume_text jd))
          (generate_content E_down k MODEL_ID (make_prompt resume_text jd))) ∧
  attempt E_textless (make_prompt resume_text jd) 1 w0
  = (Ok None,
     World (disk w0) [] [1%Z] [(MODEL_ID, make_prompt resume_text jd)]) ∧
  run_ats_engine E_down resume_text jd w0
  = run_ats_engine E_textless resume_text jd w0 ∧
  run_ats_engine E_textless resume_text jd w0
  = (Ok overloaded,
     World (disk w0) [] [1; 2; 4; 8; 16]%Z
           (replicate 5 (MODEL_ID, make_prompt resume_text jd))).
Proof.
  assert (attempts_textless E_textless w0 (make_prompt resume_text jd) 5
          = true) as Hnone by reflexivity.
  assert (∀ k, same_reply
                 (generate_content E_textless k MODEL_ID
                                   (make_prompt resume_text jd))
                 (generate_content E_down k MODEL_ID
                                   (make_prompt resume_text jd))) as Hsame
    by (intros k; exact I).
  pose proof (none_text_is_a_failed_attempt E_textless resume_text jd w0) as H.
  cbv zeta in H. destruct H as (_ & Hattempt & Hequiv & Hall).
  split_and!; [reflexivity|exact Hnone|exact Hsame| | |].
  - exact (Hattempt 1%Z eq_refl).
  - exact (Hequiv E_down Hsame).
  - exact (Hall Hnone).
Defined.

(** * Further properties of the code *)

(** ** More on the extraction *)

Lemma extract_text_all_pages E pdf_path w file
    (texts : list (option (list N))) :
  disk w !! pdf_path = Some file →
  PdfReader E file = Ok (map Ok texts) →
  extract_text_from_pdf E pdf_path w
  = (Ok (strip (concat (map page_line texts))), w).
Proof.
  intros Hopen Hparse.
  rewrite extract_text_from_pdf_unfold. unfold read_pdf.
  by rewrite Hopen, Hparse, read_pages_all_ok.
Qed.

(** X1: the text that [extract_text_from_pdf] returns neither begins nor
    ends with a character that [strip] removes, so stripping it again
    changes nothing. *)
Theorem extracted_text_is_stripped E pdf_path w text :
  (extract_text_from_pdf E pdf_path w).1 = Ok text →
  strip text = text ∧
  (∀ c, head text = Some c → isspace c = false) ∧
  (∀ c, last text = Some c → isspace c = false).
Proof.
  rewrite extract_text_from_pdf_unfold.
  destruct (read_pdf E pdf_path [] w) as [raw [[]|e]]; cbn [fst];
    intros [= <-];
    (split_and!;
     [apply strip_idemp|intros c; apply strip_head|intros c; apply strip_last]).
Qed.

(** X2: [extract_text_from_pdf] changes nothing on the disk, sleeps never
    and submits nothing; it prints at most one line, which then starts
    with "PDF Extraction Error: ", and it prints none when the file opens
    and every page is read. *)
Theorem extraction_only_reads E pdf_path w :
  disk (extract_text_from_pdf E pdf_path w).2 = disk w ∧
  slept (extract_text_from_pdf E pdf_path w).2 = slept w ∧
  sent (extract_text_from_pdf E pdf_path w).2 = sent w ∧
  (stdout (extract_text_from_pdf E pdf_path w).2 = stdout w ∨
   ∃ e, stdout (extract_text_from_pdf E pdf_path w).2
        = stdout w ++ [lit "PDF Extraction Error: " ++ exc_str e]) ∧
  (∀ file texts,
     disk w !! pdf_path = Some file →
     PdfReader E file = Ok (map Ok texts) →
     stdout (extract_text_from_pdf E pdf_path w).2 = stdout w).
Proof.
  split_and!.
  - rewrite extract_text_from_pdf_unfold.
    by destruct (read_pdf E pdf_path [] w) as [raw [[]|e]].
  - rewrite extract_text_from_pdf_unfold.
    by destruct (read_pdf E pdf_path [] w) as [raw [[]|e]].
  - rewrite extract_text_from_pdf_unfold.
    by destruct (read_pdf E pdf_path [] w) as [raw [[]|e]].
  - rewrite extract_text_from_pdf_unfold.
    destruct (read_pdf E pdf_path [] w) as [raw [[]|e]]; simpl; eauto.
  - intros file texts Hopen Hparse.
    by rewrite (extract_text_all_pages E pdf_path w file texts).
Qed.

(** X3: when reading a page raises, the pages before it make up the
    result and the failure is printed; the pages after it are never read,
    so that whatever they hold the outcome is the same. *)
Theorem pages_after_a_failure_are_not_read E E' pdf_path w file
    (texts : list (option (list N))) e rest rest' :
  disk w !! pdf_path = Some file →
  PdfReader E file = Ok (map Ok texts ++ Raise e :: rest) →
  PdfReader E' file = Ok (map Ok texts ++ Raise e :: rest') →
  extract_text_from_pdf E pdf_path w
  = (Ok (strip (concat (map page_line texts))),
     World (disk w)
           (stdout w ++ [lit "PDF Extraction Error: " ++ exc_str e])
           (slept w) (sent w)) ∧
  extract_text_from_pdf E' pdf_path w = extract_text_from_pdf E pdf_path w.
Proof.
  intros Hopen Hparse Hparse'.
  rewrite !extract_text_from_pdf_unfold. unfold read_pdf.
  by rewrite Hopen, Hparse, Hparse', !read_pages_raise.
Qed.

(** ** More on the retrying call *)

Lemma failed_attempts_first_success E prompt k0 budget k :
  k < budget →
  (∀ i, i < k → attempt_fails E prompt (k0 + i) = true) →
  attempt_fails E prompt (k0 + k) = false →
  failed_attempts E prompt k0 budget = k.
Proof.
  revert k0 k. induction budget as [|b IH]; intros k0 k Hk Hfail Hok; [lia|].
  simpl. destruct k as [|k].
  - rewrite Nat.add_0_r in Hok. by rewrite Hok.
  - assert (attempt_fails E prompt k0 = true) as ->.
    { rewrite <- (Nat.add_0_r k0). apply Hfail. lia. }
    f_equal. apply IH; [lia| |].
    + intros i Hi. replace (S k0 + i) with (k0 + S i) by lia.
      apply Hfail. lia.
    + by replace (S k0 + k) with (k0 + S k) by lia.
Qed.

Lemma failed_attempts_stop E prompt k0 budget :
  failed_attempts E prompt k0 budget < budget →
  attempt_fails E prompt (k0 + failed_attempts E prompt k0 budget) = false.
Proof.
  revert k0. induction budget as [|b IH]; intros k0; simpl; [lia|].
  destruct (attempt_fails E prompt k0) eqn:Hk0.
  - intros Hlt. rewrite Nat.add_succ_r. apply (IH (S k0)). lia.
  - intros _. by rewrite Nat.add_0_r.
Qed.

Lemma overloaded_stripped : strip overloaded = overloaded.
Proof. reflexivity. Qed.

(** X4: when the first [k] attempts fail and attempt [k + 1] (of the five)
    gets a response with a text, [run_ats_engine] returns that text
    stripped, after exactly [k + 1] submissions and the first [k] delays;
    no sleep follows the attempt that succeeds, and a text that is empty
    or blank is returned (as the empty string) like any other. *)
Theorem first_reply_is_returned E resume_text jd_text w k s :
  k < 5 →
  (∀ i, i < k →
        attempt_fails E (make_prompt resume_text jd_text)
                      (length (sent w) + i) = true) →
  generate_content E (length (sent w) + k) MODEL_ID
                   (make_prompt resume_text jd_text) = Ok (Some s) →
  run_ats_engine E resume_text jd_text w
  = (Ok (strip s),
     World (disk w) (stdout w)
           (slept w ++ take k [1; 2; 4; 8; 16]%Z)
           (sent w ++ replicate (S k)
                        (MODEL_ID, make_prompt resume_text jd_text))).
Proof.
  intros Hk Hfail Hreply.
  rewrite run_ats_engine_trace. cbv zeta.
  rewrite (failed_attempts_first_success E _ _ 5 k Hk Hfail).
  2: { unfold attempt_fails. by rewrite Hreply. }
  unfold reply_text. rewrite Hreply.
  rewrite decide_False by lia.
  replace (5 `min` S k) with (S k) by lia. reflexivity.
Qed.

(** X5: [run_ats_engine] neither touches the disk nor prints. *)
Theorem engine_touches_no_file E resume_text jd_text w :
  disk (run_ats_engine E resume_text jd_text w).2 = disk w ∧
  stdout (run_ats_engine E resume_text jd_text w).2 = stdout w.
Proof. rewrite run_ats_engine_trace. cbv zeta. done. Qed.

(** X6: the value of [run_ats_engine] is the fallback string or the
    stripped text of the response to one of the five submissions it made;
    in both cases it has no whitespace at either end. *)
Theorem engine_result_is_fallback_or_reply E resume_text jd_text w :
  ∃ result,
    (run_ats_engine E resume_text jd_text w).1 = Ok result ∧
    strip result = result ∧
    (result = overloaded ∨
     ∃ i s, i < 5 ∧
            generate_content E (length (sent w) + i) MODEL_ID
                             (make_prompt resume_text jd_text)
            = Ok (Some s) ∧
            result = strip s).
Proof.
  rewrite run_ats_engine_trace. cbv zeta. cbn [fst].
  set (prompt := make_prompt resume_text jd_text).
  set (f := failed_attempts E prompt (length (sent w)) 5).
  eexists. split; [reflexivity|].
  case_decide as Hf; [by auto using overloaded_stripped|].
  assert (f < 5) as Hlt.
  { pose proof (failed_attempts_le E prompt (length (sent w)) 5). lia. }
  pose proof (failed_attempts_stop E prompt (length (sent w)) 5 Hlt) as Hstop.
  fold f in Hstop. unfold attempt_fails in Hstop. unfold reply_text.
  destruct (generate_content E (length (sent w) + f) MODEL_ID prompt)
    as [[s|]|e] eqn:Hreply; try done.
  split; [apply strip_idemp|]. right. by exists f, s.
Qed.

(** X7: nothing is remembered between calls: calling [run_ats_engine]
    again with the same arguments submits the prompt again, at least once
    and at most five times per call. *)
Theorem engine_does_not_cache E resume_text jd_text w :
  ∃ n1 n2,
    1 ≤ n1 ≤ 5 ∧ 1 ≤ n2 ≤ 5 ∧
    sent (run_ats_engine E resume_text jd_text w).2
    = sent w ++ replicate n1 (MODEL_ID, make_prompt resume_text jd_text) ∧
    sent ((do! run_ats_engine E resume_text jd_text in
           run_ats_engine E resume_text jd_text) w).2
    = sent w ++ replicate (n1 + n2)
                  (MODEL_ID, make_prompt resume_text jd_text).
Proof.
  unfold bind. rewrite (run_ats_engine_trace E resume_text jd_text w).
  cbv zeta. rewrite run_ats_engine_trace. cbv zeta. cbn [snd sent].
  set (prompt := make_prompt resume_text jd_text).
  eexists _, _. split_and!; [| | | |reflexivity|].
  5: { rewrite <- app_assoc, <- replicate_add. reflexivity. }
  all: lia.
Qed.

(** ** More on the request handler *)

(** The five ways a request ends. *)
Lemma analyze_cases E rq w :
  (files rq !! lit "resume" = None ∧
   analyze E rq w
   = (Ok (error_response 400 (lit "Resume file missing")), w)) ∨
  (is_Some (files rq !! lit "resume") ∧ jd_of rq = [] ∧
   analyze E rq w
   = (Ok (error_response 400 (lit "Job description required")), w)) ∨
  (∃ (fault : exn * option nat) resume_file,
     files rq !! lit "resume" = Some resume_file ∧ jd_of rq ≠ [] ∧
     save_fault E (temp_path E) = Some fault ∧
     analyze E rq w
     = (Ok (error_response 500
              (lit "Internal Server Error: " ++ exc_str fault.1)),
        World (match fault.2 with
               | None => disk w
               | Some n => <[temp_path E := take n resume_file]> (disk w)
               end)
              (stdout w) (slept w) (sent w))) ∨
  (∃ resume_file w1,
     files rq !! lit "resume" = Some resume_file ∧ jd_of rq ≠ [] ∧
     save_fault E (temp_path E) = None ∧
     extract_text_from_pdf E (temp_path E) (saved E resume_file w)
     = (Ok [], w1) ∧
     analyze E rq w
     = (Ok (error_response 400
              (lit "Could not extract text from the uploaded PDF")),
        World (delete (temp_path E) (disk w)) (stdout w1)
              (slept w) (sent w))) ∨
  (∃ resume_text w1 ats_result w2,
     reaches_analysis E rq w resume_text w1 ∧
     run_ats_engine E resume_text (jd_of rq) w1 = (Ok ats_result, w2) ∧
     analyze E rq w
     = (Ok (Response 200
              {[ lit "parsed_resume" := take 3000 resume_text;
                 lit "parsed_job_description" := take 3000 (jd_of rq);
                 lit "ats_result" := ats_result ]}),
        World (delete (temp_path E) (disk w)) (stdout w1)
              (slept w2) (sent w2))).
Proof.
  destruct (files rq !! lit "resume") as [resume_file|] eqn:Hfile.
  2: { left. split; [done|]. by apply analyze_no_resume. }
  right. destruct (decide (jd_of rq = [])) as [Hjd|Hjd].
  { left. split_and!; [eauto|done|]. apply analyze_no_jd; eauto. }
  right. destruct (save_fault E (temp_path E)) as [fault|] eqn:Hsave.
  { left. exists fault, resume_file. split_and!; [done..|].
    by apply (analyze_save_fault E rq w resume_file). }
  right.
  destruct (extract_text_from_pdf_frame E (temp_path E) (saved E resume_file w))
    as (text & w1 & Hextract & _).
  destruct (decide (text = [])) as [->|Htext].
  { left. exists resume_file, w1. split_and!; try done.
    by apply (analyze_no_text E rq w resume_file w1). }
  right.
  assert (reaches_analysis E rq w text w1) as Hreach
    by (exists resume_file; done).
  destruct (analyze_success E rq w text w1 Hreach) as (ats & w2 & Hrun & Hout).
  by exists text, w1, ats, w2.
Qed.

Lemma total_take_delays f : (0 ≤ total (take f delays) ≤ 31)%Z.
Proof. do 6 (destruct f as [|f]; [vm_compute; split; discriminate|]).
       vm_compute; split; discriminate. Qed.

Lemma success_body_dom (a b c : list N) :
  dom ({[ lit "parsed_resume" := a; lit "parsed_job_description" := b;
          lit "ats_result" := c ]} : gmap (list N) (list N))
  = {[ lit "parsed_resume"; lit "parsed_job_description"; lit "ats_result" ]}.
Proof. rewrite !dom_insert_L, dom_singleton_L. set_solver. Qed.

(** X8: the handler answers every request, and no exception leaves it:
    the status is 200, 400 or 500; a 200 carries exactly the keys
    [parsed_resume], [parsed_job_description] and [ats_result]; any other
    answer carries the key [error] alone. *)
Theorem every_request_is_answered E rq w :
  ∃ r w',
    analyze E rq w = (Ok r, w') ∧
    (status r = 200 ∨ status r = 400 ∨ status r = 500)%Z ∧
    (status r = 200%Z →
     dom (json r)
     = {[ lit "parsed_resume"; lit "parsed_job_description";
          lit "ats_result" ]}) ∧
    (status r ≠ 200%Z → ∃ message, json r = {[ lit "error" := message ]}).
Proof.
  destruct (analyze_cases E rq w)
    as [(_ & ->)|[(_ & _ & ->)|[(fault & upload & _ & _ & _ & ->)|
        [(resume_file & w1 & _ & _ & _ & _ & ->)|
         (text & w1 & ats & w2 & _ & _ & ->)]]]];
    eexists _, _; (split; [reflexivity|]); simpl;
    (split_and!; [auto| |]);
    try (intros; discriminate); try (intros; eauto; done);
    intros _; apply success_body_dom.
Qed.

Lemma error_response_inj code code' message message' :
  error_response code message = error_response code' message' →
  code = code' ∧ message = message'.
Proof.
  intros H. split; [exact (f_equal status H)|].
  assert (json (error_response code message) !! lit "error"
          = json (error_response code' message') !! lit "error") as Hbody
    by (by rewrite H).
  unfold error_response in Hbody. cbn [json] in Hbody.
  rewrite !lookup_singleton_eq in Hbody. congruence.
Qed.

Lemma engine_run_inv E resume_text jd_text w ats w2 :
  run_ats_engine E resume_text jd_text w = (Ok ats, w2) →
  ∃ f, f ≤ 5 ∧
       slept w2 = slept w ++ take f delays ∧
       sent w2 = sent w ++ replicate (5 `min` S f)
                             (MODEL_ID, make_prompt resume_text jd_text).
Proof.
  rewrite run_ats_engine_trace. cbv zeta. intros [= _ <-].
  eexists. split; [apply failed_attempts_le|]. done.
Qed.

(** X9: the only path of the disk that the handler touches is the temp
    path of the request; and unless the request is answered 500 (the save
    of the upload failed), every file present after the request was there
    before with the same contents.  The same holds whenever the save does
    not fail after it has opened the destination. *)
Theorem handler_touches_only_the_temp_path E rq w :
  (∀ path,
     path ≠ temp_path E →
     disk (analyze E rq w).2 !! path = disk w !! path) ∧
  (∀ r,
     (analyze E rq w).1 = Ok r →
     status r ≠ 500%Z →
     ∀ path content,
       disk (analyze E rq w).2 !! path = Some content →
       disk w !! path = Some content) ∧
  ((∀ e n, save_fault E (temp_path E) ≠ Some (e, Some n)) →
   ∀ path content,
     disk (analyze E rq w).2 !! path = Some content →
     disk w !! path = Some content).
Proof.
  assert (disk (analyze E rq w).2 = disk w ∨
          disk (analyze E rq w).2 = delete (temp_path E) (disk w) ∨
          ∃ e n upload r,
            save_fault E (temp_path E) = Some (e, Some n) ∧
            (analyze E rq w).1 = Ok r ∧ status r = 500%Z ∧
            disk (analyze E rq w).2
            = <[temp_path E := take n upload]> (disk w)) as Hdisk.
  { destruct (analyze_cases E rq w)
      as [(_ & ->)|[(_ & _ & ->)|[(fault & upload & _ & _ & Hsave & ->)|
          [(resume_file & w1 & _ & _ & _ & _ & ->)|
           (text & w1 & ats & w2 & _ & _ & ->)]]]]; auto.
    destruct fault as [e [n|]]; [|auto].
    right. right. eexists e, n, upload, _. done. }
  split_and!.
  - intros path Hne.
    destruct Hdisk as [->|[->|(e & n & upload & r & _ & _ & _ & ->)]].
    + done.
    + by rewrite lookup_delete_ne.
    + by rewrite lookup_insert_ne.
  - intros r Hr Hstatus path content.
    destruct Hdisk as [->|[->|(e & n & upload & r' & _ & Hr' & H500 & _)]].
    + done.
    + rewrite lookup_delete_Some. by intros [_ ?].
    + congruence.
  - intros Hclean path content.
    destruct Hdisk as [->|[->|(e & n & upload & r & Hsave & _)]].
    + done.
    + rewrite lookup_delete_Some. by intros [_ ?].
    + by destruct (Hclean e n).
Qed.

(** X10: a request costs at most five submissions to the remote service
    and at most 31 seconds of sleep, the sleeps being the first [f] delays
    for [f] failed attempts; a request that is not answered 200 costs
    neither a submission nor a sleep. *)
Theorem request_cost_is_bounded E rq w :
  ∃ n f prompt,
    n ≤ 5 ∧ f ≤ n ∧
    sent (analyze E rq w).2 = sent w ++ replicate n (MODEL_ID, prompt) ∧
    slept (analyze E rq w).2 = slept w ++ take f [1; 2; 4; 8; 16]%Z ∧
    (total (take f [1; 2; 4; 8; 16]%Z) ≤ 31)%Z ∧
    (∀ r, (analyze E rq w).1 = Ok r → status r ≠ 200%Z → n = 0 ∧ f = 0).
Proof.
  assert (∀ r0 : response, status r0 ≠ 200%Z →
            ∃ n f prompt,
              n ≤ 5 ∧ f ≤ n ∧
              sent w = sent w ++ replicate n (MODEL_ID, prompt) ∧
              slept w = slept w ++ take f [1; 2; 4; 8; 16]%Z ∧
              (total (take f [1; 2; 4; 8; 16]%Z) ≤ 31)%Z ∧
              (∀ r, Ok r0 = Ok r → status r ≠ 200%Z → n = 0 ∧ f = 0))
    as Hfree.
  { intros r0 _. exists 0, 0, []. simpl. rewrite !app_nil_r.
    split_and!; try done; lia. }
  destruct (analyze_cases E rq w)
    as [(_ & ->)|[(_ & _ & ->)|[(fault & upload & _ & _ & _ & ->)|
        [(resume_file & w1 & _ & _ & _ & _ & ->)|
         (text & w1 & ats & w2 & Hreach & Hrun & ->)]]]];
    cbn [fst snd sent slept]; try (by apply Hfree).
  destruct (sent_at_analysis E rq w text w1 Hreach) as [Hsent Hslept].
  destruct (engine_run_inv E text (jd_of rq) w1 ats w2 Hrun)
    as (f & Hf & Hslept2 & Hsent2).
  exists (5 `min` S f), f, (make_prompt text (jd_of rq)).
  rewrite Hsent2, Hslept2, Hsent, Hslept.
  split_and!; try done; try lia.
  - apply total_take_delays.
  - intros r [= <-]. done.
Qed.

(** X11: what is submitted for a request that reaches the analysis is,
    under the model name "gemini-2.5-flash", the fixed instructions with
    the whole extracted text after "RESUME:" and the whole stripped job
    description after "JOB DESCRIPTION:" (the cut at 3000 characters
    applies to the answer only), submitted at least once and at most five
    times. *)
Theorem full_texts_are_submitted E rq w resume_text w1 :
  reaches_analysis E rq w resume_text w1 →
  ∃ n,
    1 ≤ n ≤ 5 ∧
    sent (analyze E rq w).2
    = sent w ++ replicate n
                  (lit "gemini-2.5-flash",
                   lit "
    You are an advanced Applicant Tracking System used by FAANG-level companies.

    Analyze the resume against the job description.

    RESUME:
    " ++ resume_text ++ lit "

    JOB DESCRIPTION:
    " ++ strip (default [] (form rq !! lit "job_description")) ++ lit "

    Return the result STRICTLY in this format:

    ATS Match: <number>%

    Strengths:
    - Bullet points of strong alignment
    - Clear and concise

    Improvement Suggestions:
    - Missing skills
    - Weak areas
    - Actionable resume fixes

    Rules:
    - Use professional ATS language
    - Do NOT add explanations outside sections
    - Keep output text-only
    ").
Proof.
  intros Hreach.
  destruct (analyze_success E rq w resume_text w1 Hreach)
    as (ats & w2 & Hrun & ->).
  destruct (sent_at_analysis E rq w resume_text w1 Hreach) as [Hsent _].
  destruct (engine_run_inv E resume_text (jd_of rq) w1 ats w2 Hrun)
    as (f & Hf & _ & Hsent2).
  exists (5 `min` S f). split; [lia|].
  cbn [snd sent]. rewrite Hsent2, Hsent. reflexivity.
Qed.

(** X12: when saving the upload fails, the handler answers 500 with
    "Internal Server Error: " followed by the text of the exception;
    nothing is printed, slept or submitted.  When the destination could
    not be opened the world is as it was; when the copy failed after that,
    the part written stays on the disk under the temp path: this path of
    the handler removes nothing. *)
Theorem save_failure_is_a_500 E rq w resume_file e left :
  files rq !! lit "resume" = Some resume_file →
  strip (default [] (form rq !! lit "job_description")) ≠ [] →
  save_fault E (temp_path E) = Some (e, left) →
  (analyze E rq w).1
  = Ok (Response 500
          {[ lit "error" := lit "Internal Server Error: " ++ exc_str e ]}) ∧
  stdout (analyze E rq w).2 = stdout w ∧
  slept (analyze E rq w).2 = slept w ∧
  sent (analyze E rq w).2 = sent w ∧
  (left = None → (analyze E rq w).2 = w) ∧
  (∀ n, left = Some n →
        disk (analyze E rq w).2
        = <[temp_path E := take n resume_file]> (disk w) ∧
        disk (analyze E rq w).2 !! temp_path E = Some (take n resume_file)).
Proof.
  intros Hfile Hjd Hsave.
  rewrite (analyze_save_fault E rq w resume_file (e, left)) by done.
  cbn [fst snd stdout slept sent disk]. split_and!; try done.
  - intros ->. by destruct w.
  - intros n ->. split; [done|]. apply lookup_insert_eq.
Qed.

Ltac other_answer :=
  let H := fresh in
  intros H; exfalso; revert H; intros [= H];
  try (apply error_response_inj in H as [? ?]); done.

(** X13: the two validation answers are given in exactly their cases:
    "Resume file missing" if and only if the request has no [resume] file
    part, whatever the job description; "Job description required" if and
    only if it has one and the [job_description] field is absent or holds
    only characters that [strip] removes. *)
Theorem validation_errors_are_exact E rq w :
  ((analyze E rq w).1
   = Ok (Response 400 {[ lit "error" := lit "Resume file missing" ]})
   ↔ files rq !! lit "resume" = None) ∧
  ((analyze E rq w).1
   = Ok (Response 400 {[ lit "error" := lit "Job description required" ]})
   ↔ is_Some (files rq !! lit "resume") ∧
     whitespace_only (default [] (form rq !! lit "job_description")) = true).
Proof.
  fold (error_response 400 (lit "Resume file missing")).
  fold (error_response 400 (lit "Job description required")).
  assert (jd_of rq = [] ↔
          whitespace_only (default [] (form rq !! lit "job_description")) = true)
    as Hblank by apply strip_nil.
  destruct (analyze_cases E rq w)
    as [(Hnone & ->)|[(Hsome & Hjd & ->)|[(fault & upload & Hsome & Hjd & _ & ->)|
        [(resume_file & w1 & Hsome & Hjd & _ & _ & ->)|
         (text & w1 & ats & w2 & (resume_file & Hsome & Hjd & _) & _ & ->)]]]];
    cbn [fst].
  - split; [done|]. split; [other_answer|].
    rewrite Hnone. by intros [[? ?] _].
  - split; [|by rewrite <- Hblank].
    split; [other_answer|].
    intros Hnone. rewrite Hnone in Hsome. by destruct Hsome.
  - split; (split; [other_answer|]).
    + by rewrite Hsome.
    + rewrite <- Hblank. by intros [_ ?].
  - split; (split; [other_answer|]).
    + by rewrite Hsome.
    + rewrite <- Hblank. by intros [_ ?].
  - split; (split; [other_answer|]).
    + by rewrite Hsome.
    + rewrite <- Hblank. by intros [_ ?].
Qed.

(** [os.path.join] under the upload folder. *)
Lemma temp_path_unfold E :
  temp_path E
  = match uuid4 E with
    | 47%N :: _ => uuid4 E ++ lit ".pdf"
    | _ => lit "uploads/" ++ uuid4 E ++ lit ".pdf"
    end.
Proof.
  unfold temp_path, os_path_join. destruct (uuid4 E) as [|c u]; [done|].
  destruct c as [|p]; [done|].
  do 6 (try (destruct p as [p|p|]; try done)).
Qed.

Lemma temp_path_cases E :
  (∃ u, uuid4 E = 47%N :: u ∧ temp_path E = 47%N :: u ++ lit ".pdf") ∨
  (head (uuid4 E) ≠ Some 47%N ∧
   temp_path E = lit "uploads/" ++ uuid4 E ++ lit ".pdf").
Proof.
  rewrite temp_path_unfold. destruct (uuid4 E) as [|c u]; [by right|].
  destruct (decide (c = 47%N)) as [->|Hc]; [left; by exists u|].
  right. split; [by intros [= ?]|].
  destruct c as [|p]; [done|].
  do 6 (try (destruct p as [p|p|]; try done)).
Qed.

(** X14: the temp path is the upload folder, a slash, the identifier and
    ".pdf" (for an identifier that does not begin with a slash, as none
    does), and requests with different identifiers get different paths. *)
Theorem different_uuids_different_paths E E' :
  uuid4 E ≠ uuid4 E' →
  temp_path E ≠ temp_path E' ∧
  (head (uuid4 E) ≠ Some 47%N →
   temp_path E = lit "uploads/" ++ uuid4 E ++ lit ".pdf").
Proof.
  intros Hne. split.
  - intros Heq. apply Hne.
    destruct (temp_path_cases E) as [(u & Hu & Hp)|(_ & Hp)],
             (temp_path_cases E') as [(u' & Hu' & Hp')|(_ & Hp')];
      rewrite Hp, Hp' in Heq.
    + rewrite Hu, Hu'. injection Heq as Heq.
      apply app_inv_tail in Heq. by subst.
    + discriminate Heq.
    + discriminate Heq.
    + apply app_inv_head in Heq. by apply app_inv_tail in Heq.
  - intros Hhead. by destruct (temp_path_cases E) as [(u & Hu & _)|(_ & Hp)];
      [rewrite Hu in Hhead|].
Qed.

(** X15: what the handler extracts is what it has just saved: when the
    reader gets all the pages of the uploaded bytes, a document whose
    pages hold nothing but whitespace is answered 400 with "Could not
    extract text from the uploaded PDF", the temp file being removed and
    nothing printed, slept or submitted; any other document is answered
    200, with the first 3000 characters of the stripped page texts as
    [parsed_resume]. *)
Theorem blank_document_is_rejected E rq w resume_file
    (texts : list (option (list N))) :
  files rq !! lit "resume" = Some resume_file →
  strip (default [] (form rq !! lit "job_description")) ≠ [] →
  save_fault E (temp_path E) = None →
  PdfReader E resume_file = Ok (map Ok texts) →
  (whitespace_only (concat (map page_line texts)) = true →
   analyze E rq w
   = (Ok (Response 400
            {[ lit "error" :=
                 lit "Could not extract text from the uploaded PDF" ]}),
      World (delete (temp_path E) (disk w)) (stdout w) (slept w) (sent w))) ∧
  (whitespace_only (concat (map page_line texts)) = false →
   ∃ r, (analyze E rq w).1 = Ok r ∧
        status r = 200%Z ∧
        json r !! lit "parsed_resume"
        = Some (take 3000 (strip (concat (map page_line texts))))).
Proof.
  intros Hfile Hjd Hsave Hparse.
  assert (extract_text_from_pdf E (temp_path E) (saved E resume_file w)
          = (Ok (strip (concat (map page_line texts))), saved E resume_file w))
    as Hextract.
  { apply (extract_text_all_pages E _ _ resume_file); [|done].
    apply lookup_insert_eq. }
  split.
  - intros Hblank. apply strip_nil in Hblank. rewrite Hblank in Hextract.
    by rewrite (analyze_no_text E rq w resume_file (saved E resume_file w)).
  - intros Htext.
    assert (strip (concat (map page_line texts)) ≠ []) as Hne.
    { rewrite strip_nil. by rewrite Htext. }
    destruct (analyze_success E rq w _ _
                (ex_intro _ resume_file
                   (conj Hfile (conj Hjd (conj Hsave (conj Hextract Hne))))))
      as (ats & w2 & _ & ->).
    eexists. split; [reflexivity|]. split; [done|].
    apply success_body_lookup.
Qed.

(** ** The further properties at the sample inputs *)

Lemma extracted_text_is_stripped_witness :
  (extract_text_from_pdf E_flaky other_path w0).1 = Ok resume_text ∧
  strip resume_text = resume_text ∧
  (∀ c, head resume_text = Some c → isspace c = false) ∧
  (∀ c, last resume_text = Some c → isspace c = false).
Proof.
  assert ((extract_text_from_pdf E_flaky other_path w0).1 = Ok resume_text)
    as Hrun by (vm_compute; reflexivity).
  split; [exact Hrun|].
  exact (extracted_text_is_stripped E_flaky other_path w0 resume_text Hrun).
Defined.

Lemma pages_after_a_failure_are_not_read_witness :
  disk w0 !! other_path = Some [x00]%byte ∧
  extract_text_from_pdf E_torn other_path w0
  = (Ok (lit "Jane Doe"),
     World (disk w0)
           [lit "PDF Extraction Error: Invalid Elementary Object"] [] []) ∧
  extract_text_from_pdf E_torn_short other_path w0
  = extract_text_from_pdf E_torn other_path w0.
Proof.
  assert (disk w0 !! other_path = Some [x00]%byte) as Hopen
    by (vm_compute; reflexivity).
  split; [exact Hopen|].
  exact (pages_after_a_failure_are_not_read E_torn E_torn_short other_path w0
           [x00]%byte [Some (lit " Jane Doe"); None] broken_page
           [Ok (Some (lit "Python, SQL "))] [] Hopen eq_refl eq_refl).
Defined.

Lemma first_reply_is_returned_witness :
  (∀ i, i < 2 →
        attempt_fails E_flaky (make_prompt resume_text jd)
                      (length (sent w0) + i) = true) ∧
  generate_content E_flaky (length (sent w0) + 2) MODEL_ID
                   (make_prompt resume_text jd)
  = Ok (Some (lit " ATS Match: 80% ")) ∧
  run_ats_engine E_flaky resume_text jd w0
  = (Ok (lit "ATS Match: 80%"),
     World (disk w0) [] [1; 2]%Z
           (replicate 3 (MODEL_ID, make_prompt resume_text jd))).
Proof.
  assert (∀ i, i < 2 →
               attempt_fails E_flaky (make_prompt resume_text jd)
                             (length (sent w0) + i) = true) as Hfail.
  { intros i Hi. destruct i as [|[|i]]; [reflexivity|reflexivity|lia]. }
  split; [exact Hfail|]. split; [reflexivity|].
  exact (first_reply_is_returned E_flaky resume_text jd w0 2
           (lit " ATS Match: 80% ") ltac:(lia) Hfail eq_refl).
Defined.

(** A blank text is no failure: it is returned, stripped to nothing, at
    the first attempt. *)
Example blank_reply_is_returned :
  run_ats_engine E_blank_reply resume_text jd w0
  = (Ok [], World (disk w0) [] [] [(MODEL_ID, make_prompt resume_text jd)]).
Proof. vm_compute. reflexivity. Qed.

Lemma reaches_analysis_long :
  reaches_analysis E_flaky rq_long w0 resume_text (saved E_flaky upload w0).
Proof.
  exists upload. split_and!; try (vm_compute; reflexivity);
    vm_compute; discriminate.
Defined.

Lemma full_texts_are_submitted_witness :
  reaches_analysis E_flaky rq_long w0 resume_text (saved E_flaky upload w0) ∧
  resume_text = lit "Jane Doe" ++ [10%N] ++ lit "Python, SQL" ∧
  strip (default [] (form rq_long !! lit "job_description"))
  = replicate 3005 120%N ∧
  (∃ n,
     1 ≤ n ≤ 5 ∧
     sent (analyze E_flaky rq_long w0).2
     = sent w0 ++ replicate n
                    (lit "gemini-2.5-flash",
                     lit "
    You are an advanced Applicant Tracking System used by FAANG-level companies.

    Analyze the resume against the job description.

    RESUME:
    " ++ resume_text ++ lit "

    JOB DESCRIPTION:
    " ++ strip (default [] (form rq_long !! lit "job_description")) ++ lit "

    Return the result STRICTLY in this format:

    ATS Match: <number>%

    Strengths:
    - Bullet points of strong alignment
    - Clear and concise

    Improvement Suggestions:
    - Missing skills
    - Weak areas
    - Actionable resume fixes

    Rules:
    - Use professional ATS language
    - Do NOT add explanations outside sections
    - Keep output text-only
    ")) ∧
  length (sent (analyze E_flaky rq_long w0).2) = 3 ∧
  (∀ submission, submission ∈ sent (analyze E_flaky rq_long w0).2 →
                 length submission.2 = 559 + 20 + 3005).
Proof.
  split; [exact reaches_analysis_long|].
  split; [reflexivity|]. split; [vm_compute; reflexivity|].
  split; [exact (full_texts_are_submitted E_flaky rq_long w0 resume_text _
                   reaches_analysis_long)|].
  split; [vm_compute; reflexivity|].
  intros submission Hin.
  assert (sent (analyze E_flaky rq_long w0).2
          = replicate 3 (MODEL_ID,
                         make_prompt resume_text (replicate 3005 120%N)))
    as Hsent by (vm_compute; reflexivity).
  rewrite Hsent in Hin. apply elem_of_replicate in Hin as [-> _].
  vm_compute. reflexivity.
Defined.

Lemma save_failure_is_a_500_witness :
  files rq !! lit "resume" = Some upload ∧
  strip (default [] (form rq !! lit "job_description")) ≠ [] ∧
  (save_fault E_full (temp_path E_full) = Some (disk_full, Some 2) ∧
   (analyze E_full rq w0).1
   = Ok (Response 500
           {[ lit "error" :=
                lit "Internal Server Error: [Errno 28] No space left on device" ]}) ∧
   disk (analyze E_full rq w0).2
     !! lit "uploads/1b4e28ba-2fa1-4d3b-a3f5-0123456789ab.pdf"
   = Some [x25; x50]%byte ∧
   sent (analyze E_full rq w0).2 = []) ∧
  (save_fault E_no_folder (temp_path E_no_folder) = Some (no_folder, None) ∧
   (analyze E_no_folder rq w0).1
   = Ok (Response 500
           {[ lit "error" :=
                lit "Internal Server Error: [Errno 2] No such file or directory: 'uploads/1b4e28ba-2fa1-4d3b-a3f5-0123456789ab.pdf'" ]}) ∧
   (analyze E_no_folder rq w0).2 = w0).
Proof.
  assert (files rq !! lit "resume" = Some upload) as Hfile
    by (vm_compute; reflexivity).
  assert (strip (default [] (form rq !! lit "job_description")) ≠ []) as Hjd
    by (vm_compute; discriminate).
  destruct (save_failure_is_a_500 E_full rq w0 upload disk_full (Some 2)
              Hfile Hjd eq_refl) as (Hr & _ & _ & Hsent & _ & Hleft).
  destruct (save_failure_is_a_500 E_no_folder rq w0 upload no_folder None
              Hfile Hjd eq_refl) as (Hr' & _ & _ & _ & Hsame & _).
  split; [exact Hfile|]. split; [exact Hjd|]. split.
  - split; [reflexivity|]. split; [exact Hr|]. split; [|exact Hsent].
    exact (proj2 (Hleft 2 eq_refl)).
  - split; [reflexivity|]. split; [exact Hr'|]. exact (Hsame eq_refl).
Defined.

Lemma different_uuids_different_paths_witness :
  uuid4 E_flaky ≠ uuid4 E_other ∧
  temp_path E_flaky ≠ temp_path E_other ∧
  temp_path E_flaky = lit "uploads/1b4e28ba-2fa1-4d3b-a3f5-0123456789ab.pdf".
Proof.
  assert (uuid4 E_flaky ≠ uuid4 E_other) as Hne by (vm_compute; discriminate).
  destruct (different_uuids_different_paths E_flaky E_other Hne)
    as [Hpaths Hshape].
  split_and!; [exact Hne|exact Hpaths|].
  apply Hshape. vm_compute. discriminate.
Defined.

Lemma blank_document_is_rejected_witness :
  files rq !! lit "resume" = Some upload ∧
  strip (default [] (form rq !! lit "job_description")) ≠ [] ∧
  (PdfReader E_scanned upload = Ok (map Ok [None; Some []]) ∧
   whitespace_only (concat (map page_line [None; Some []])) = true ∧
   analyze E_scanned rq w0
   = (Ok (Response 400
            {[ lit "error" :=
                 lit "Could not extract text from the uploaded PDF" ]}),
      w0)) ∧
  (PdfReader E_flaky upload = Ok (map Ok texts) ∧
   whitespace_only (concat (map page_line texts)) = false ∧
   ∃ r, (analyze E_flaky rq w0).1 = Ok r ∧
        status r = 200%Z ∧
        json r !! lit "parsed_resume"
        = Some (take 3000 (strip (concat (map page_line texts))))).
Proof.
  assert (files rq !! lit "resume" = Some upload) as Hfile
    by (vm_compute; reflexivity).
  assert (strip (default [] (form rq !! lit "job_description")) ≠ []) as Hjd
    by (vm_compute; discriminate).
  split; [exact Hfile|]. split; [exact Hjd|]. split.
  - split; [reflexivity|]. split; [reflexivity|].
    rewrite (proj1 (blank_document_is_rejected E_scanned rq w0 upload
                      [None; Some []] Hfile Hjd eq_refl eq_refl) eq_refl).
    vm_compute. reflexivity.
  - split; [reflexivity|]. split; [reflexivity|].
    exact (proj2 (blank_document_is_rejected E_flaky rq w0 upload texts
                    Hfile Hjd eq_refl eq_refl) eq_refl).
Defined.

Lemma handler_touches_only_the_temp_path_witness :
  (analyze E_flaky rq w0).1 = Ok r_served ∧
  status r_served ≠ 500%Z ∧
  (∀ path content,
     disk (analyze E_flaky rq w0).2 !! path = Some content →
     disk w0 !! path = Some content) ∧
  other_path ≠ temp_path E_full ∧
  disk (analyze E_full rq w0).2 !! other_path = disk w0 !! other_path ∧
  disk (analyze E_full rq w0).2 !! temp_path E_full = Some [x25; x50]%byte.
Proof.
  assert ((analyze E_flaky rq w0).1 = Ok r_served) as Hr
    by (vm_compute; reflexivity).
  assert (status r_served ≠ 500%Z) as Hstatus by discriminate.
  assert (other_path ≠ temp_path E_full) as Hne by (vm_compute; discriminate).
  split; [exact Hr|]. split; [exact Hstatus|]. split.
  - exact (proj1 (proj2 (handler_touches_only_the_temp_path E_flaky rq w0))
             r_served Hr Hstatus).
  - split; [exact Hne|]. split.
    + exact (proj1 (handler_touches_only_the_temp_path E_full rq w0)
               other_path Hne).
    + vm_compute. reflexivity.
Defined.
